(** * BTST stock scanner (app.py): per-symbol analyzer, index gate and filter

    A shallow embedding of the analysis pipeline of [app.py]:
    [get_index_data] and the index gate (lines 50-67), [analyze_stock]
    (lines 71-130), the scan loop (lines 136-140) and the BTST filter
    (lines 143-155).

    Numbers.  Prices and volumes of a bar are rationals ([Q]); values the
    program computes are [fnum]: a rational, or one of the three special
    values a float64 division or a rolling mean can produce (+inf, -inf,
    NaN).  Arithmetic on finite values is exact; rounding, overflow and the
    sign of zero are not modelled.

    Frames.  A price frame is the list of its rows in index order; its
    index holds a date at most once, so [.loc[date]] is one row.

    Environment.  The market-data provider ([yf.download]) and the
    indicator library ([pandas_ta]) are not part of the repository; they
    are parameters of the model.  [Sample] gives one provider and two
    libraries to run the model on. *)

From Stdlib Require Import QArith ZArith List String Bool Lia Lqa.
From Stdlib Require Import Sorting.Sorted.
Import ListNotations.

Local Open Scope Z_scope.
Local Open Scope Q_scope.

(** ** Extended numbers *)

Module Float.

Inductive fnum : Type :=
  | Num (q : Q)
  | PInf
  | NInf
  | NaN.

Definition Qlt_bool (a b : Q) : bool := negb (Qle_bool b a).

(** [x / y] on float64 values (numpy scalars: a zero divisor gives an
    infinity or NaN, never an exception). *)
Definition fdiv (x y : fnum) : fnum :=
  match x, y with
  | NaN, _ | _, NaN => NaN
  | Num a, Num b =>
      if Qeq_bool b 0 then
        (if Qeq_bool a 0 then NaN else if Qlt_bool 0 a then PInf else NInf)
      else Num (a / b)
  | Num _, (PInf | NInf) => Num 0
  | PInf, Num b => if Qlt_bool b 0 then NInf else PInf
  | NInf, Num b => if Qlt_bool b 0 then PInf else NInf
  | (PInf | NInf), (PInf | NInf) => NaN
  end.

(** [x * y] on float64 values. *)
Definition fmul (x y : fnum) : fnum :=
  match x, y with
  | NaN, _ | _, NaN => NaN
  | Num a, Num b => Num (a * b)
  | PInf, Num b | Num b, PInf =>
      if Qeq_bool b 0 then NaN else if Qlt_bool 0 b then PInf else NInf
  | NInf, Num b | Num b, NInf =>
      if Qeq_bool b 0 then NaN else if Qlt_bool 0 b then NInf else PInf
  | PInf, PInf | NInf, NInf => PInf
  | PInf, NInf | NInf, PInf => NInf
  end.

(** [x <= y]; every comparison with NaN is false. *)
Definition fle (x y : fnum) : bool :=
  match x, y with
  | NaN, _ | _, NaN => false
  | NInf, _ => true
  | _, PInf => true
  | Num a, Num b => Qle_bool a b
  | Num _, NInf => false
  | PInf, (Num _ | NInf) => false
  end.

(** [x < y]. *)
Definition flt (x y : fnum) : bool :=
  match x, y with
  | NaN, _ | _, NaN => false
  | PInf, _ => false
  | _, NInf => false
  | Num a, Num b => Qlt_bool a b
  | NInf, (Num _ | PInf) => true
  | Num _, PInf => true
  end.

(** [x >= y] and [x > y], as the source writes them. *)
Definition fge (x y : fnum) : bool := fle y x.
Definition fgt (x y : fnum) : bool := flt y x.

(** Equality of values up to the representation of the rational. *)
Definition feq (x y : fnum) : Prop :=
  match x, y with
  | Num a, Num b => a == b
  | PInf, PInf | NInf, NInf | NaN, NaN => True
  | _, _ => False
  end.

End Float.
Export Float.

(** ** Exceptions and results *)

(** The exceptions the modelled statements can raise.  [ProviderError]
    stands for whatever the data provider or the indicator library raise
    themselves. *)
Inductive exn : Type :=
  | IndexError (msg : string)
  | KeyError (key : string)
  | AttributeError (msg : string)
  | ProviderError (msg : string).

(** [str(e)]. *)
Definition str_exn (e : exn) : string :=
  match e with
  | IndexError msg => msg
  | KeyError key => ("'" ++ key ++ "'")%string
  | AttributeError msg => msg
  | ProviderError msg => msg
  end.

Inductive result (A : Type) : Type :=
  | Ok (a : A)
  | Raise (e : exn).
Arguments Ok {A} a.
Arguments Raise {A} e.

Definition bind {A B : Type} (m : result A) (k : A -> result B) : result B :=
  match m with
  | Ok a => k a
  | Raise e => Raise e
  end.

Declare Scope result_scope.
Delimit Scope result_scope with result.
Notation "x <- m ;; k" := (bind m (fun x => k))
  (at level 61, m at next level, right associativity) : result_scope.
Local Open Scope result_scope.

(** ** Frames and series *)

Record Bar : Type := mkBar {
  Open : Q;
  High : Q;
  Low : Q;
  Close : Q;
  Volume : Q
}.

(** Dates are day numbers; a price frame is its rows in index order, each
    with its date. *)
Abbreviation date := Z (only parsing).
Definition PriceFrame : Type := list (date * Bar).

(** A row of an indicator frame: column name and value. *)
Definition Row : Type := list (string * fnum).

Definition oob : string := "single positional indexer is out-of-bounds".
Definition none_iloc : string := "'NoneType' object has no attribute 'iloc'".

(** [analysis_date in data.index] *)
Definition index_contains (d : date) (data : PriceFrame) : bool :=
  existsb (fun r => (fst r =? d)%Z) data.

(** [data.loc[analysis_date]], for an index that holds the date at most
    once (with the date twice pandas answers with a frame, not a row;
    properties that depend on the row state the uniqueness). *)
Definition loc (d : date) (data : PriceFrame) : result Bar :=
  match find (fun r => (fst r =? d)%Z) data with
  | Some r => Ok (snd r)
  | None => Raise (KeyError "analysis_date")
  end.

(** [data.index[0]] *)
Definition index0 (data : PriceFrame) : result date :=
  match data with
  | r :: _ => Ok (fst r)
  | [] => Raise (IndexError "index 0 is out of bounds for axis 0 with size 0")
  end.

(** [data[data.index < analysis_date]] *)
Definition rows_before (d : date) (data : PriceFrame) : PriceFrame :=
  filter (fun r => (fst r <? d)%Z) data.

(** [s.iloc[-k]] for [k >= 1]. *)
Definition iloc_neg {A : Type} (k : nat) (s : list A) : result A :=
  if (List.length s <? k)%nat then Raise (IndexError oob)
  else match nth_error s (List.length s - k) with
       | Some a => Ok a
       | None => Raise (IndexError oob)
       end.

(** [row[key]] on a row of an indicator frame. *)
Fixpoint getitem (key : string) (row : Row) : result fnum :=
  match row with
  | [] => Raise (KeyError key)
  | (k, v) :: rest => if String.eqb k key then Ok v else getitem key rest
  end.

(** [x.iloc[-1]] where [x] is what an indicator call returned ([None]
    when the library declines to compute). *)
Definition iloc_last_of {A : Type} (x : option (list A)) : result A :=
  match x with
  | None => Raise (AttributeError none_iloc)
  | Some s => iloc_neg 1 s
  end.

Fixpoint Qsum (xs : list Q) : Q :=
  match xs with
  | [] => 0
  | x :: rest => x + Qsum rest
  end.

Definition Qmean (xs : list Q) : Q :=
  Qsum xs / inject_Z (Z.of_nat (List.length xs)).

(** The [w] observations ending at position [i]. *)
Definition window_at (w i : nat) (xs : list Q) : list Q :=
  firstn w (skipn (S i - w) xs).

(** [s.rolling(window=w).mean()]: NaN until [w] observations are
    available, then the mean of the last [w]. *)
Definition rolling_mean (w : nat) (xs : list Q) : list fnum :=
  map (fun i => if (S i <? w)%nat then NaN else Num (Qmean (window_at w i xs)))
      (seq 0 (List.length xs)).

(** ** The output row of one symbol (the dict of lines 107-127) *)

Record AnalysisRecord : Type := mkRecord {
  rec_Symbol : string;
  rec_Open : Q;
  rec_High : Q;
  rec_Low : Q;
  rec_Close : Q;
  rec_Volume : Q;
  rec_AvgVolume10D : fnum;
  rec_PctPriceChange : fnum;
  rec_PctCloseNearHigh : fnum;
  rec_CloseGtPrevHigh : bool;
  rec_VolumeSpike : fnum;
  rec_IntradayRangePct : fnum;
  rec_RSI14 : fnum;
  rec_MACD : fnum;
  rec_MACDSignal : fnum;
  rec_BBUpper : fnum;
  rec_BBMiddle : fnum;
  rec_BBLower : fnum;
  rec_CloseGtBBUpper : bool
}.

(** ** The indicator library, as the source calls it

    [ta.rsi(close, length=14)], [ta.macd(close)] and
    [ta.bbands(close, length=20)].  A call raises, returns [None], or
    returns a series / a frame (its rows in index order). *)
Record TaLib : Type := mkTaLib {
  ta_rsi : list Q -> nat -> result (option (list fnum));
  ta_macd : list Q -> result (option (list Row));
  ta_bbands : list Q -> nat -> result (option (list Row))
}.

(** ** Metrics of lines 82-95 *)

(** Line 83. *)
Definition prev_day (d : date) (data : PriceFrame) : result (option Bar) :=
  i0 <- index0 data ;;
  if (i0 <? d)%Z
  then r <- iloc_neg 1 (rows_before d data) ;; Ok (Some (snd r))
  else Ok None.

(** Line 86. *)
Definition pct_change (today : Bar) : fnum :=
  fmul (fdiv (Num (Close today - Open today)) (Num (Open today))) (Num 100).

(** Line 87. *)
Definition pct_close_near_high (today : Bar) : fnum :=
  if negb (Qeq_bool (High today) (Low today))
  then fmul (fdiv (Num (Close today - Low today)) (Num (High today - Low today)))
            (Num 100)
  else Num 0.

(** Line 88. *)
Definition close_above_prev_high (today : Bar) (prev : option Bar) : bool :=
  match prev with
  | Some p => Qlt_bool (High p) (Close today)
  | None => false
  end.

(** Line 91. *)
Definition avg_volume (data : PriceFrame) : result fnum :=
  iloc_neg 2 (rolling_mean 10 (map (fun r => Volume (snd r)) data)).

(** Line 92. *)
Definition volume_spike (today : Bar) (avg : fnum) : fnum :=
  if fgt avg (Num 0) then fdiv (Num (Volume today)) avg else Num 0.

(** Line 95. *)
Definition intraday_range_pct (today : Bar) : fnum :=
  fmul (fdiv (Num (High today - Low today)) (Num (Open today))) (Num 100).

Section Scanner.

(** [yf.download(symbol, start=..., end=...)]: raises, or returns a frame. *)
Variable yf_download : string -> date -> date -> result PriceFrame.
Variable ta : TaLib.
(** [str] of a [datetime.date]. *)
Variable date_str : date -> string.

(** The body of the [try] of [analyze_stock] (lines 73-127). *)
Definition analyze_body (symbol : string) (analysis_date : date)
  : result (option AnalysisRecord) :=
  let end_date := (analysis_date + 1)%Z in
  let start_date := (analysis_date - 60)%Z in
  data <- yf_download symbol start_date end_date ;;
  if negb (index_contains analysis_date data) then Ok None else
  today <- loc analysis_date data ;;
  prev <- prev_day analysis_date data ;;
  let pct := pct_change today in
  let near_high := pct_close_near_high today in
  let above := close_above_prev_high today prev in
  avg <- avg_volume data ;;
  let spike := volume_spike today avg in
  let range_pct := intraday_range_pct today in
  let closes := map (fun r => Close (snd r)) data in
  rsi <- (s <- ta_rsi ta closes 14 ;; iloc_last_of s) ;;
  macd <- (f <- ta_macd ta closes ;; iloc_last_of f) ;;
  bb <- (f <- ta_bbands ta closes 20 ;; iloc_last_of f) ;;
  macd_line <- getitem "MACD_12_26_9" macd ;;
  macd_signal <- getitem "MACDs_9" macd ;;
  bb_upper <- getitem "BBU_20_2.0" bb ;;
  bb_middle <- getitem "BBM_20_2.0" bb ;;
  bb_lower <- getitem "BBL_20_2.0" bb ;;
  bb_upper' <- getitem "BBU_20_2.0" bb ;;
  Ok (Some {|
    rec_Symbol := symbol;
    rec_Open := Open today;
    rec_High := High today;
    rec_Low := Low today;
    rec_Close := Close today;
    rec_Volume := Volume today;
    rec_AvgVolume10D := avg;
    rec_PctPriceChange := pct;
    rec_PctCloseNearHigh := near_high;
    rec_CloseGtPrevHigh := above;
    rec_VolumeSpike := spike;
    rec_IntradayRangePct := range_pct;
    rec_RSI14 := rsi;
    rec_MACD := macd_line;
    rec_MACDSignal := macd_signal;
    rec_BBUpper := bb_upper;
    rec_BBMiddle := bb_middle;
    rec_BBLower := bb_lower;
    rec_CloseGtBBUpper := fgt (Num (Close today)) bb_upper'
  |}).

(** The line [st.write] shows in the handler (line 129). *)
Definition error_line (symbol : string) (e : exn) : string :=
  ("Error analyzing " ++ symbol ++ ": " ++ str_exn e)%string.

(** [analyze_stock] (lines 71-130): what it returns ([None] is the
    no-data sentinel) and what it wrote. *)
Definition analyze_stock (symbol : string) (analysis_date : date)
  : option AnalysisRecord * list string :=
  match analyze_body symbol analysis_date with
  | Ok r => (r, [])
  | Raise e => (None, [error_line symbol e])
  end.

(** The loop of lines 134-140: [results] and everything written. *)
Fixpoint scan_symbols (symbols : list string) (analysis_date : date)
  : list AnalysisRecord * list string :=
  match symbols with
  | [] => ([], [])
  | symbol :: rest =>
      let '(result, written) := analyze_stock symbol analysis_date in
      let '(results, written') := scan_symbols rest analysis_date in
      (match result with
       | Some r => r :: results
       | None => results
       end, written ++ written')
  end.

(** Lines 147-153, for one row. *)
Definition btst_criteria (idx_pct_change : fnum) (r : AnalysisRecord) : bool :=
  fge (rec_PctPriceChange r) (Num 2)
  && fge (rec_VolumeSpike r) (Num 2)
  && fge (rec_PctCloseNearHigh r) (Num 70)
  && Bool.eqb (rec_CloseGtPrevHigh r) true
  && fge idx_pct_change (Num 0).

(** Line 155. *)
Definition btst_stocks (idx_pct_change : fnum) (df : list AnalysisRecord)
  : list AnalysisRecord :=
  filter (btst_criteria idx_pct_change) df.

Definition idx_symbol : string := "^NSEI".

(** Lines 50-54. *)
Definition get_index_data (d : date) : result PriceFrame :=
  yf_download idx_symbol d (d + 1)%Z.

(** Line 67, from the index bar of line 63-66. *)
Definition idx_pct_change_of (b : Bar) : fnum :=
  fmul (fdiv (Num (Close b - Open b)) (Num (Open b))) (Num 100).

Definition no_index_warning (d : date) : string :=
  ("No index data available for " ++ date_str d
   ++ ". Please select a valid trading day.")%string.

Definition no_results_warning : string :=
  "No analysis results available. Check your stock symbols and date selection.".

(** How a run of the script from line 56 on ends. *)
Inductive outcome : Type :=
  | Uncaught (e : exn)
  | Stopped (warning : string)
  | NoResults (idx_pct_change : fnum) (written : list string) (warning : string)
  | Tables (idx_pct_change : fnum) (df btst : list AnalysisRecord)
           (written : list string).

(** Lines 56-221 without the rendering. *)
Definition scan (symbols : list string) (selected_date : date) : outcome :=
  match get_index_data selected_date with
  | Raise e => Uncaught e
  | Ok index_data =>
      if negb (index_contains selected_date index_data)
      then Stopped (no_index_warning selected_date)
      else
        match loc selected_date index_data with
        | Raise e => Uncaught e
        | Ok b =>
            let idx_pct_change := idx_pct_change_of b in
            let '(results, written) := scan_symbols symbols selected_date in
            match results with
            | [] => NoResults idx_pct_change written no_results_warning
            | _ :: _ =>
                Tables idx_pct_change results
                       (btst_stocks idx_pct_change results) written
            end
        end
  end.

End Scanner.

(** ** Vocabulary of the properties *)

(** What the provider promises for a request [start, end): rows in
    strictly increasing date order, all inside the window. *)
Definition window_ok (start_date end_date : date) (data : PriceFrame) : Prop :=
  StronglySorted Z.lt (map fst data)
  /\ Forall (fun r => (start_date <= fst r < end_date)%Z) data.

(** Decidable form of the two parts of [window_ok]. *)
Fixpoint strictly_increasing (l : list Z) : bool :=
  match l with
  | [] => true
  | x :: rest =>
      match rest with
      | [] => true
      | y :: _ => (x <? y)%Z && strictly_increasing rest
      end
  end.

Definition window_okb (start_date end_date : date) (data : PriceFrame) : bool :=
  strictly_increasing (map fst data)
  && forallb (fun r => ((start_date <=? fst r) && (fst r <? end_date))%Z) data.

(** The last [k] elements. *)
Definition lastn {A : Type} (k : nat) (l : list A) : list A :=
  skipn (List.length l - k) l.

(** [p] is the last bar of [data] dated strictly before [d]. *)
Definition is_last_before (d : date) (data : PriceFrame) (p : Bar) : Prop :=
  exists front dp back,
    data = front ++ (dp, p) :: back
    /\ (dp < d)%Z
    /\ Forall (fun r => (d <= fst r)%Z) back.

(** No bar of [data] is dated strictly before [d]. *)
Definition no_bar_before (d : date) (data : PriceFrame) : Prop :=
  Forall (fun r => (d <= fst r)%Z) data.

(** Bar validity as the data model states it. *)
Definition valid_bar (b : Bar) : Prop :=
  Close b <= High b /\ Low b <= Close b /\ 0 <= Low b /\ Low b <= High b.

(** The four per-symbol clauses of the filter. *)
Definition per_symbol_clauses (r : AnalysisRecord) : bool :=
  fge (rec_PctPriceChange r) (Num 2)
  && fge (rec_VolumeSpike r) (Num 2)
  && fge (rec_PctCloseNearHigh r) (Num 70)
  && Bool.eqb (rec_CloseGtPrevHigh r) true.

(** The table a run produced, if it produced one. *)
Definition full_table (o : outcome) : list AnalysisRecord :=
  match o with
  | Tables _ df _ _ => df
  | _ => []
  end.

Definition candidate_subset (o : outcome) : list AnalysisRecord :=
  match o with
  | Tables _ _ btst _ => btst
  | _ => []
  end.

(** Whether the analyzer returns a record for a symbol. *)
Definition has_record (yf : string -> date -> date -> result PriceFrame)
           (ta : TaLib) (d : date) (symbol : string) : bool :=
  match fst (analyze_stock yf ta symbol d) with
  | Some _ => true
  | None => false
  end.

(** The closes handed to the indicator calls. *)
Definition closes_of (data : PriceFrame) : list Q :=
  map (fun r => Close (snd r)) data.

(** The column names pandas_ta gives the frame of [ta.macd] with the
    default parameters: line, histogram, signal, each suffixed with
    fast, slow and signal length. *)
Definition pandas_ta_macd_columns : list string :=
  ["MACD_12_26_9"; "MACDh_12_26_9"; "MACDs_12_26_9"]%string.

(** ** A sample market *)

Module Sample.

Definition day : date := 20000%Z.

(** The bar of the scenario symbol on the analysis day, and the bar of
    each of its earlier days. *)
Definition today_bar : Bar := mkBar 100 110 98 108 500000.
Definition earlier_bar : Bar := mkBar 100 105 99 104 200000.

Definition history (n : nat) : PriceFrame :=
  map (fun i => ((day - Z.of_nat n + Z.of_nat i)%Z, earlier_bar)) (seq 0 n).

Definition frame_X : PriceFrame := history 39 ++ [(day, today_bar)].
Definition frame_Y : PriceFrame := history 39.
Definition frame_Z : PriceFrame := [(day, today_bar)].
Definition frame_W : PriceFrame := history 4 ++ [(day, today_bar)].
Definition index_bar : Bar := mkBar 20000 20150 19950 20100 0.
Definition frame_index : PriceFrame := [(day, index_bar)].

Definition in_window (start_date end_date : date) (data : PriceFrame) : PriceFrame :=
  filter (fun r => ((start_date <=? fst r) && (fst r <? end_date))%Z) data.

(** A provider: four symbols and the index have data, one symbol makes
    the request fail, any other symbol has no rows. *)
Definition yf (symbol : string) (start_date end_date : date) : result PriceFrame :=
  if String.eqb symbol "X" then Ok (in_window start_date end_date frame_X)
  else if String.eqb symbol "Y" then Ok (in_window start_date end_date frame_Y)
  else if String.eqb symbol "Z" then Ok (in_window start_date end_date frame_Z)
  else if String.eqb symbol "W" then Ok (in_window start_date end_date frame_W)
  else if String.eqb symbol "^NSEI" then Ok (in_window start_date end_date frame_index)
  else if String.eqb symbol "ERR" then Raise (ProviderError "connection reset")
  else Ok [].

(** A stand-in indicator library.  Only the shape of what it returns
    matters below: one entry per close, frames with the given columns. *)
Definition frame_with (columns : list string) (closes : list Q) : list Row :=
  map (fun c => map (fun k => (k, Num c)) columns) closes.

Definition lib (macd_columns bb_columns : list string) : TaLib :=
  mkTaLib (fun closes _ => Ok (Some (map (fun _ => Num 50) closes)))
          (fun closes => Ok (Some (frame_with macd_columns closes)))
          (fun closes _ => Ok (Some (frame_with bb_columns closes))).

Definition bb_columns : list string :=
  ["BBL_20_2.0"; "BBM_20_2.0"; "BBU_20_2.0"; "BBB_20_2.0"; "BBP_20_2.0"]%string.

(** The library with the MACD columns the source reads ... *)
Definition lib_as_read : TaLib :=
  lib ["MACD_12_26_9"; "MACDh_12_26_9"; "MACDs_9"]%string bb_columns.

(** ... and with the MACD columns pandas_ta produces. *)
Definition lib_pandas_ta : TaLib := lib pandas_ta_macd_columns bb_columns.

Definition date_str (d : date) : string :=
  if (d =? day)%Z then "2024-10-04" else "2024-10-05".

(** A library that, like pandas_ta, returns None for a series shorter
    than the longest period the indicator needs. *)
Definition lib_min_length : TaLib :=
  mkTaLib
    (fun closes n =>
       Ok (if (List.length closes <? n)%nat then None
           else Some (map (fun _ => Num 50) closes)))
    (fun closes =>
       Ok (if (List.length closes <? 26)%nat then None
           else Some (frame_with pandas_ta_macd_columns closes)))
    (fun closes n =>
       Ok (if (List.length closes <? n)%nat then None
           else Some (frame_with bb_columns closes))).

End Sample.

(** ** Facts about frames *)

Lemma bind_ok {A B : Type} (m : result A) (k : A -> result B) (b : B) :
  bind m k = Ok b -> exists a, m = Ok a /\ k a = Ok b.
Proof.
  destruct m as [a|e]; simpl; intros H; [exists a; auto | discriminate].
Qed.

Lemma index_contains_true (d : date) (data : PriceFrame) :
  index_contains d data = true <-> In d (map fst data).
Proof.
  unfold index_contains. rewrite existsb_exists, in_map_iff.
  split; intros [r [H1 H2]]; exists r.
  - apply Z.eqb_eq in H2. auto.
  - rewrite Z.eqb_eq. auto.
Qed.

Lemma index_contains_false (d : date) (data : PriceFrame) :
  index_contains d data = false <-> ~ In d (map fst data).
Proof.
  rewrite <- index_contains_true. destruct (index_contains d data); split;
    intros H; try discriminate; try reflexivity; try (intros K; discriminate).
  exfalso. apply H. reflexivity.
Qed.

(** In a frame answered for a window that ends the day after [d], the
    bar of [d] is the last row and every other row is earlier. *)
Lemma window_split (start_date d : date) (data : PriceFrame) :
  window_ok start_date (d + 1)%Z data ->
  In d (map fst data) ->
  exists prior today,
    data = prior ++ [(d, today)] /\ Forall (fun r => (fst r < d)%Z) prior.
Proof.
  intros [Hs Hw]. induction data as [|[dr br] rest IH]; simpl; intros Hin.
  - contradiction.
  - simpl in Hs. apply StronglySorted_inv in Hs. destruct Hs as [Hs Hlt].
    apply Forall_cons_iff in Hw. destruct Hw as [Hr Hw]. simpl in Hr.
    destruct rest as [|r' rest'].
    + destruct Hin as [->|[]]. exists [], br. split; [reflexivity | constructor].
    + assert (Hd : In d (map fst (r' :: rest'))).
      { destruct Hin as [->|Hin]; [|exact Hin]. exfalso.
        simpl in Hlt. apply Forall_inv in Hlt. apply Forall_inv in Hw.
        simpl in Hw. lia. }
      destruct (IH Hs Hw Hd) as [prior [today [E HF]]].
      exists ((dr, br) :: prior), today. split.
      * simpl. rewrite E. reflexivity.
      * constructor; [|exact HF]. simpl.
        rewrite Forall_forall in Hlt. apply Hlt. exact Hd.
Qed.

Lemma find_app_last (d : date) (prior : PriceFrame) (today : Bar) :
  Forall (fun r => (fst r < d)%Z) prior ->
  find (fun r => (fst r =? d)%Z) (prior ++ [(d, today)]) = Some (d, today).
Proof.
  induction 1 as [|r l Hr _ IH]; simpl.
  - rewrite Z.eqb_refl. reflexivity.
  - destruct (Z.eqb_spec (fst r) d); [lia | exact IH].
Qed.

Lemma loc_app_last (d : date) (prior : PriceFrame) (today : Bar) :
  Forall (fun r => (fst r < d)%Z) prior ->
  loc d (prior ++ [(d, today)]) = Ok today.
Proof.
  intros H. unfold loc. rewrite find_app_last by exact H. reflexivity.
Qed.

Lemma rows_before_app_last (d : date) (prior : PriceFrame) (today : Bar) :
  Forall (fun r => (fst r < d)%Z) prior ->
  rows_before d (prior ++ [(d, today)]) = prior.
Proof.
  unfold rows_before. induction 1 as [|r l Hr _ IH]; simpl.
  - rewrite Z.ltb_irrefl. reflexivity.
  - destruct (Z.ltb_spec (fst r) d); [|lia]. rewrite IH. reflexivity.
Qed.

Lemma iloc_neg_1_snoc {A : Type} (l : list A) (a : A) :
  iloc_neg 1 (l ++ [a]) = Ok a.
Proof.
  unfold iloc_neg. rewrite length_app. simpl.
  destruct (Nat.ltb_spec (List.length l + 1) 1); [lia|].
  replace (List.length l + 1 - 1)%nat with (List.length l + 0)%nat by lia.
  rewrite nth_error_app2 by lia.
  replace (List.length l + 0 - List.length l)%nat with 0%nat by lia.
  reflexivity.
Qed.

Lemma iloc_neg_short {A : Type} (k : nat) (l : list A) :
  (List.length l < k)%nat -> iloc_neg k l = Raise (IndexError oob).
Proof.
  intros H. unfold iloc_neg. destruct (Nat.ltb_spec (List.length l) k); [reflexivity | lia].
Qed.

Lemma strictly_increasing_sound (l : list Z) :
  strictly_increasing l = true -> StronglySorted Z.lt l.
Proof.
  intros H. apply Sorted_StronglySorted.
  - intros x y z. apply Z.lt_trans.
  - induction l as [|x rest IH]; [constructor|].
    simpl in H. destruct rest as [|y rest'].
    + constructor; constructor.
    + apply andb_true_iff in H. destruct H as [H1 H2].
      constructor; [apply IH; exact H2|].
      constructor. apply Z.ltb_lt. exact H1.
Qed.

Lemma window_okb_sound (start_date end_date : date) (data : PriceFrame) :
  window_okb start_date end_date data = true ->
  window_ok start_date end_date data.
Proof.
  unfold window_okb, window_ok. rewrite andb_true_iff. intros [H1 H2]. split.
  - apply strictly_increasing_sound. exact H1.
  - rewrite Forall_forall. rewrite forallb_forall in H2. intros r Hr.
    specialize (H2 r Hr). apply andb_true_iff in H2. destruct H2 as [Ha Hb].
    apply Z.leb_le in Ha. apply Z.ltb_lt in Hb. lia.
Qed.

(** Line 83 on a frame whose last row is the analysis day. *)
Lemma prev_day_none (d : date) (today : Bar) :
  prev_day d [(d, today)] = Ok None.
Proof.
  unfold prev_day. simpl. rewrite Z.ltb_irrefl. reflexivity.
Qed.

Lemma prev_day_some (d dp : date) (front : PriceFrame) (p today : Bar) :
  Forall (fun r => (fst r < d)%Z) (front ++ [(dp, p)]) ->
  prev_day d ((front ++ [(dp, p)]) ++ [(d, today)]) = Ok (Some p).
Proof.
  intros H. unfold prev_day.
  rewrite rows_before_app_last by exact H. rewrite iloc_neg_1_snoc. simpl.
  assert (H0 : exists r rest, (front ++ [(dp, p)]) ++ [(d, today)] = r :: rest
                              /\ (fst r < d)%Z).
  { destruct front as [|r front']; simpl in *.
    - exists (dp, p), [(d, today)]. split; [reflexivity|].
      apply Forall_inv in H. exact H.
    - eexists r, _. split; [reflexivity|]. apply Forall_inv in H. exact H. }
  destruct H0 as [r [rest [E Hr]]]. rewrite E. simpl.
  destruct (Z.ltb_spec (fst r) d); [reflexivity | lia].
Qed.

Lemma rolling_mean_length (w : nat) (xs : list Q) :
  List.length (rolling_mean w xs) = List.length xs.
Proof.
  unfold rolling_mean. rewrite length_map, length_seq. reflexivity.
Qed.

Lemma rolling_mean_nth (w i : nat) (xs : list Q) :
  (i < List.length xs)%nat ->
  nth_error (rolling_mean w xs) i
  = Some (if (S i <? w)%nat then NaN else Num (Qmean (window_at w i xs))).
Proof.
  intros H. unfold rolling_mean. rewrite nth_error_map.
  rewrite (nth_error_nth' _ 0%nat) by (rewrite length_seq; exact H).
  rewrite seq_nth by exact H. reflexivity.
Qed.

(** [.iloc[-2]] of the rolling mean is its value one row before the last. *)
Lemma avg_volume_snoc (prior : PriceFrame) (t : date * Bar) :
  (1 <= List.length prior)%nat ->
  avg_volume (prior ++ [t])
  = Ok (if (List.length prior <? 10)%nat then NaN
        else Num (Qmean (map (fun r => Volume (snd r)) (lastn 10 prior)))).
Proof.
  intros H. unfold avg_volume, iloc_neg.
  rewrite rolling_mean_length, length_map, length_app. simpl.
  destruct (Nat.ltb_spec (List.length prior + 1) 2); [lia|].
  rewrite rolling_mean_nth by (rewrite length_map, length_app; simpl; lia).
  replace (S (List.length prior + 1 - 2)) with (List.length prior) by lia.
  destruct (Nat.ltb_spec (List.length prior) 10); [reflexivity|].
  do 3 f_equal. unfold window_at, lastn.
  replace (S (List.length prior + 1 - 2) - 10)%nat
    with (List.length prior - 10)%nat by lia.
  rewrite map_app, skipn_app, length_map.
  replace (List.length prior - 10 - List.length prior)%nat with 0%nat by lia.
  simpl skipn at 2. rewrite firstn_app, length_skipn, length_map.
  replace (10 - (List.length prior - (List.length prior - 10)))%nat
    with 0%nat by lia.
  simpl firstn at 2. rewrite app_nil_r, skipn_map.
  apply firstn_all2. rewrite length_map, length_skipn. lia.
Qed.

Lemma avg_volume_single (t : date * Bar) :
  avg_volume [t] = Raise (IndexError oob).
Proof. reflexivity. Qed.

(** ** What a returned record holds *)

Section Analyzer.

Variable yf_download : string -> date -> date -> result PriceFrame.
Variable ta : TaLib.

(** A record comes out of a run of the whole [try] body: the frame held
    the analysis day, every step succeeded, nothing was written, and the
    fields are the metrics of lines 82-95. *)
Lemma analyze_stock_some (symbol : string) (d : date)
      (r : AnalysisRecord) (written : list string) :
  analyze_stock yf_download ta symbol d = (Some r, written) ->
  exists data today prev avg,
    yf_download symbol (d - 60)%Z (d + 1)%Z = Ok data
    /\ index_contains d data = true
    /\ loc d data = Ok today
    /\ prev_day d data = Ok prev
    /\ avg_volume data = Ok avg
    /\ written = []
    /\ rec_Symbol r = symbol
    /\ rec_Close r = Close today
    /\ rec_Volume r = Volume today
    /\ rec_AvgVolume10D r = avg
    /\ rec_PctPriceChange r = pct_change today
    /\ rec_PctCloseNearHigh r = pct_close_near_high today
    /\ rec_CloseGtPrevHigh r = close_above_prev_high today prev
    /\ rec_VolumeSpike r = volume_spike today avg.
Proof.
  unfold analyze_stock.
  destruct (analyze_body yf_download ta symbol d) as [o|e] eqn:E;
    [|intros H; discriminate].
  intros H. injection H as -> <-.
  unfold analyze_body in E.
  apply bind_ok in E. destruct E as [data [Hd E]].
  destruct (index_contains d data) eqn:Hc; simpl in E; [|discriminate].
  apply bind_ok in E. destruct E as [today [Ht E]].
  apply bind_ok in E. destruct E as [prev [Hp E]].
  apply bind_ok in E. destruct E as [avg [Ha E]].
  apply bind_ok in E. destruct E as [rsi [_ E]].
  apply bind_ok in E. destruct E as [macd [_ E]].
  apply bind_ok in E. destruct E as [bb [_ E]].
  apply bind_ok in E. destruct E as [ml [_ E]].
  apply bind_ok in E. destruct E as [ms [_ E]].
  apply bind_ok in E. destruct E as [bu [_ E]].
  apply bind_ok in E. destruct E as [bm [_ E]].
  apply bind_ok in E. destruct E as [bl [_ E]].
  apply bind_ok in E. destruct E as [bu' [_ E]].
  injection E as <-. simpl.
  exists data, today, prev, avg. repeat split; auto.
Qed.

(** The two MACD fields of a record were read from the last row of the
    frame of [ta.macd] under the keys of lines 121 and 122. *)
Lemma analyze_stock_some_macd (symbol : string) (d : date)
      (r : AnalysisRecord) (written : list string) :
  analyze_stock yf_download ta symbol d = (Some r, written) ->
  exists data f row,
    yf_download symbol (d - 60)%Z (d + 1)%Z = Ok data
    /\ ta_macd ta (map (fun x => Close (snd x)) data) = Ok (Some f)
    /\ iloc_neg 1 f = Ok row
    /\ getitem "MACD_12_26_9" row = Ok (rec_MACD r)
    /\ getitem "MACDs_9" row = Ok (rec_MACDSignal r).
Proof.
  unfold analyze_stock.
  destruct (analyze_body yf_download ta symbol d) as [o|e] eqn:E;
    [|intros H; discriminate].
  intros H. injection H as -> <-.
  unfold analyze_body in E.
  apply bind_ok in E. destruct E as [data [Hd E]].
  destruct (index_contains d data) eqn:Hc; simpl in E; [|discriminate].
  apply bind_ok in E. destruct E as [today [_ E]].
  apply bind_ok in E. destruct E as [prev [_ E]].
  apply bind_ok in E. destruct E as [avg [_ E]].
  apply bind_ok in E. destruct E as [rsi [_ E]].
  apply bind_ok in E. destruct E as [macd [Hm E]].
  apply bind_ok in E. destruct E as [bb [_ E]].
  apply bind_ok in E. destruct E as [ml [Hml E]].
  apply bind_ok in E. destruct E as [ms [Hms E]].
  apply bind_ok in E. destruct E as [bu [_ E]].
  apply bind_ok in E. destruct E as [bm [_ E]].
  apply bind_ok in E. destruct E as [bl [_ E]].
  apply bind_ok in E. destruct E as [bu' [_ E]].
  injection E as <-. simpl.
  apply bind_ok in Hm. destruct Hm as [got [Hf Hrow]].
  destruct got as [f|]; simpl in Hrow; [|discriminate].
  exists data, f, macd. auto.
Qed.

(** An exception anywhere in the body ends in the handler. *)
Lemma analyze_stock_raise (symbol : string) (d : date) (e : exn) :
  analyze_body yf_download ta symbol d = Raise e ->
  analyze_stock yf_download ta symbol d = (None, [error_line symbol e]).
Proof.
  intros H. unfold analyze_stock. rewrite H. reflexivity.
Qed.

(** The loop over a concatenation. *)
Lemma scan_symbols_app (l1 l2 : list string) (d : date) :
  scan_symbols yf_download ta (l1 ++ l2) d
  = (fst (scan_symbols yf_download ta l1 d) ++ fst (scan_symbols yf_download ta l2 d),
     snd (scan_symbols yf_download ta l1 d) ++ snd (scan_symbols yf_download ta l2 d)).
Proof.
  induction l1 as [|s l1 IH]; simpl.
  - destruct (scan_symbols yf_download ta l2 d); reflexivity.
  - rewrite IH.
    destruct (analyze_stock yf_download ta s d) as [o w].
    destruct (scan_symbols yf_download ta l1 d) as [rs ws]. simpl.
    rewrite app_assoc. destruct o; reflexivity.
Qed.

(** Every row of the table was returned for a symbol of the list and
    carries that symbol. *)
Lemma scan_symbols_in (symbols : list string) (d : date) (r : AnalysisRecord) :
  In r (fst (scan_symbols yf_download ta symbols d)) ->
  exists symbol written,
    In symbol symbols
    /\ analyze_stock yf_download ta symbol d = (Some r, written).
Proof.
  induction symbols as [|s rest IH]; simpl; [contradiction|].
  destruct (analyze_stock yf_download ta s d) as [o w] eqn:E.
  destruct (scan_symbols yf_download ta rest d) as [rs ws]. simpl in *.
  intros H.
  assert (K : (o = Some r) \/ In r rs).
  { destruct o as [x|]; [destruct H as [->|H]; auto | auto]. }
  destruct K as [->|K].
  - exists s, w. auto.
  - destruct (IH K) as [s' [w' [H1 H2]]]. exists s', w'. auto.
Qed.

End Analyzer.

(** ** Facts about the two tables *)

Lemma full_table_rows yf ta date_str symbols d r :
  In r (full_table (scan yf ta date_str symbols d)) ->
  In r (fst (scan_symbols yf ta symbols d)).
Proof.
  unfold scan. destruct (get_index_data yf d) as [index_data|e]; simpl; [|tauto].
  destruct (index_contains d index_data); simpl; [|tauto].
  destruct (loc d index_data) as [b|e]; simpl; [|tauto].
  destruct (scan_symbols yf ta symbols d) as [[|x rs] ws]; simpl; tauto.
Qed.

Lemma candidate_subset_rows yf ta date_str symbols d r :
  In r (candidate_subset (scan yf ta date_str symbols d)) ->
  In r (full_table (scan yf ta date_str symbols d)).
Proof.
  unfold scan. destruct (get_index_data yf d) as [index_data|e]; simpl; [|tauto].
  destruct (index_contains d index_data); simpl; [|tauto].
  destruct (loc d index_data) as [b|e]; simpl; [|tauto].
  destruct (scan_symbols yf ta symbols d) as [[|x rs] ws]; [simpl; tauto|].
  unfold candidate_subset, full_table, btst_stocks.
  intros H. apply filter_In in H. tauto.
Qed.

(** A symbol for which the analyzer returns the sentinel has no row. *)
Lemma sentinel_no_row yf ta date_str symbol d written :
  analyze_stock yf ta symbol d = (None, written) ->
  forall symbols r,
    In r (full_table (scan yf ta date_str symbols d))
    \/ In r (candidate_subset (scan yf ta date_str symbols d)) ->
    rec_Symbol r <> symbol.
Proof.
  intros Hn symbols r H Hs.
  assert (K : In r (fst (scan_symbols yf ta symbols d))).
  { apply (full_table_rows yf ta date_str).
    destruct H as [H|H]; [exact H | apply candidate_subset_rows; exact H]. }
  apply scan_symbols_in in K. destruct K as [s [w [_ K]]].
  pose proof (analyze_stock_some yf ta s d r w K) as [data [today [prev [avg I]]]].
  assert (Es : s = symbol) by (rewrite <- Hs; symmetry; apply I).
  subst s. rewrite Hn in K. discriminate.
Qed.

Lemma scan_symbols_skip yf ta symbol d written :
  analyze_stock yf ta symbol d = (None, written) ->
  forall before after,
    scan_symbols yf ta (before ++ symbol :: after) d
    = (fst (scan_symbols yf ta before d) ++ fst (scan_symbols yf ta after d),
       snd (scan_symbols yf ta before d) ++ written
         ++ snd (scan_symbols yf ta after d)).
Proof.
  intros Hn before after. rewrite scan_symbols_app. simpl. rewrite Hn.
  destruct (scan_symbols yf ta after d); reflexivity.
Qed.

Lemma fge_Num (a b : Q) : fge (Num a) (Num b) = true <-> b <= a.
Proof. unfold fge. simpl. apply Qle_bool_iff. Qed.

Lemma Qlt_bool_iff (a b : Q) : Qlt_bool a b = true <-> a < b.
Proof.
  unfold Qlt_bool. rewrite negb_true_iff. split; intros H.
  - apply Qnot_le_lt. intros K. apply Qle_bool_iff in K. congruence.
  - destruct (Qle_bool b a) eqn:E; [|reflexivity].
    apply Qle_bool_iff in E. exfalso. apply (Qlt_not_le _ _ H E).
Qed.

Lemma Qeq_bool_false (a b : Q) : Qeq_bool a b = false <-> ~ a == b.
Proof.
  split; intros H.
  - intros K. apply Qeq_bool_iff in K. congruence.
  - destruct (Qeq_bool a b) eqn:E; [|reflexivity].
    apply Qeq_bool_iff in E. contradiction.
Qed.

Lemma fdiv_Num (a b : Q) : ~ b == 0 -> fdiv (Num a) (Num b) = Num (a / b).
Proof.
  intros H. simpl. apply Qeq_bool_false in H. rewrite H. reflexivity.
Qed.

Lemma getitem_missing (key : string) (row : Row) :
  ~ In key (map fst row) -> getitem key row = Raise (KeyError key).
Proof.
  induction row as [|[k v] rest IH]; simpl; intros H; [reflexivity|].
  destruct (String.eqb_spec k key) as [->|Hk]; [tauto|].
  apply IH. tauto.
Qed.

Lemma iloc_neg_in {A : Type} (k : nat) (s : list A) (a : A) :
  iloc_neg k s = Ok a -> In a s.
Proof.
  unfold iloc_neg. destruct (List.length s <? k)%nat; [discriminate|].
  destruct (nth_error s (List.length s - k)) eqn:E; [|discriminate].
  intros H. injection H as <-. eapply nth_error_In. exact E.
Qed.

(** ** The filter *)

(** C1.  In every scan that produces tables, a record is in the candidate
    subset if and only if it is in the full table and all five clauses
    hold with the literal thresholds: percent change >= 2, volume spike
    >= 2, percent close near high >= 70, close above previous high true,
    index percent change >= 0.  The candidate subset is included in the
    full table, and the index clause is one gate for the whole scan: the
    subset is the rows passing the four per-symbol clauses when the index
    change is >= 0 and empty otherwise. *)
Theorem candidate_iff_five_clauses yf ta date_str symbols d idx df btst written :
  scan yf ta date_str symbols d = Tables idx df btst written ->
  (forall r,
      In r btst <->
      In r df
      /\ fge (rec_PctPriceChange r) (Num 2) = true
      /\ fge (rec_VolumeSpike r) (Num 2) = true
      /\ fge (rec_PctCloseNearHigh r) (Num 70) = true
      /\ rec_CloseGtPrevHigh r = true
      /\ fge idx (Num 0) = true)
  /\ incl btst df
  /\ btst = (if fge idx (Num 0) then filter per_symbol_clauses df else []).
Proof.
  intros H.
  assert (E : btst = btst_stocks idx df).
  { unfold scan in H.
    destruct (get_index_data yf d) as [index_data|e]; [|discriminate].
    destruct (index_contains d index_data); simpl in H; [|discriminate].
    destruct (loc d index_data) as [b|e]; [|discriminate].
    destruct (scan_symbols yf ta symbols d) as [[|x rs] ws]; [discriminate|].
    injection H as <- <- <- <-. reflexivity. }
  subst btst. clear H. unfold btst_stocks. split; [|split].
  - intros r. rewrite filter_In. unfold btst_criteria.
    repeat rewrite andb_true_iff.
    destruct (rec_CloseGtPrevHigh r); simpl; intuition congruence.
  - intros r K. apply filter_In in K. tauto.
  - destruct (fge idx (Num 0)) eqn:G.
    + apply filter_ext. intros r. unfold btst_criteria, per_symbol_clauses.
      rewrite G. apply andb_true_r.
    + induction df as [|r df IH]; simpl; [reflexivity|].
      unfold btst_criteria at 1. rewrite G, andb_false_r. exact IH.
Qed.

Lemma candidate_iff_five_clauses_witness :
  exists idx df btst written,
    scan Sample.yf Sample.lib_as_read Sample.date_str
         ["X"; "Y"; "ERR"]%string Sample.day
    = Tables idx df btst written
    /\ incl btst df
    /\ List.length btst = 1%nat.
Proof.
  eexists _, _, _, _. split; [vm_compute; reflexivity|].
  split; [|reflexivity].
  eapply (candidate_iff_five_clauses Sample.yf Sample.lib_as_read Sample.date_str
            ["X"; "Y"; "ERR"]%string Sample.day).
  vm_compute. reflexivity.
Defined.

(** ** Percent close near high *)

(** C4.  For every valid bar (High >= Close >= Low >= 0, Low <= High) the
    computed percent close near high is (Close - Low) / (High - Low) * 100
    and lies in [0, 100] when High > Low, and is exactly 0 when High
    equals Low. *)
Theorem pct_close_near_high_range (b : Bar) :
  valid_bar b ->
  (Low b < High b ->
   exists q, pct_close_near_high b = Num q
             /\ q == (Close b - Low b) / (High b - Low b) * 100
             /\ 0 <= q /\ q <= 100)
  /\ (High b == Low b -> pct_close_near_high b = Num 0).
Proof.
  intros [Hch [Hlc [Hl0 Hlh]]]. unfold pct_close_near_high. split.
  - intros Hlt.
    assert (Hne : ~ High b == Low b) by lra.
    apply Qeq_bool_false in Hne. rewrite Hne. simpl negb. cbv iota.
    rewrite fdiv_Num by lra. simpl fmul.
    eexists. split; [reflexivity|]. split; [reflexivity|].
    assert (Hpos : 0 < High b - Low b) by lra.
    assert (H0 : 0 <= (Close b - Low b) / (High b - Low b)).
    { apply Qle_shift_div_l; [exact Hpos | lra]. }
    assert (H1 : (Close b - Low b) / (High b - Low b) <= 1).
    { apply Qle_shift_div_r; [exact Hpos | lra]. }
    split; lra.
  - intros Heq. apply Qeq_bool_iff in Heq. rewrite Heq. reflexivity.
Qed.

Lemma pct_close_near_high_range_witness :
  valid_bar Sample.today_bar
  /\ (exists q, pct_close_near_high Sample.today_bar = Num q
                /\ q == (108 - 98) / (110 - 98) * 100 /\ 0 <= q /\ q <= 100)
  /\ pct_close_near_high (mkBar 100 100 100 100 5) = Num 0.
Proof.
  assert (V : valid_bar Sample.today_bar).
  { unfold valid_bar, Sample.today_bar; simpl. repeat split; lra. }
  assert (V' : valid_bar (mkBar 100 100 100 100 5)).
  { unfold valid_bar; simpl. repeat split; lra. }
  split; [exact V|]. split.
  - apply (pct_close_near_high_range Sample.today_bar V).
    unfold Sample.today_bar; simpl. lra.
  - apply (pct_close_near_high_range (mkBar 100 100 100 100 5) V').
    simpl. lra.
Defined.

(** ** Volume spike *)

(** C5.  In the record of a symbol the volume spike is the day's volume
    divided by the stored 10-day average when that average is > 0 (for a
    finite average [a]: Volume / a), and exactly 0 when the average is not
    > 0, NaN included: the division is only performed under the guard. *)
Theorem volume_spike_guarded yf ta symbol d r written :
  analyze_stock yf ta symbol d = (Some r, written) ->
  (fgt (rec_AvgVolume10D r) (Num 0) = true ->
   rec_VolumeSpike r = fdiv (Num (rec_Volume r)) (rec_AvgVolume10D r))
  /\ (forall a, rec_AvgVolume10D r = Num a -> 0 < a ->
                rec_VolumeSpike r = Num (rec_Volume r / a))
  /\ (fgt (rec_AvgVolume10D r) (Num 0) = false -> rec_VolumeSpike r = Num 0).
Proof.
  intros H.
  destruct (analyze_stock_some yf ta symbol d r written H)
    as [data [today [prev [avg I]]]].
  destruct I as [_ [_ [_ [_ [_ [_ [_ [_ [Hv [Ha [_ [_ [_ Hs]]]]]]]]]]]]].
  rewrite Hs, Ha, Hv. unfold volume_spike. repeat split.
  - intros G. rewrite G. reflexivity.
  - intros a -> Hpos.
    assert (G : fgt (Num a) (Num 0) = true) by (apply Qlt_bool_iff; exact Hpos).
    rewrite G. apply fdiv_Num. lra.
  - intros G. rewrite G. reflexivity.
Qed.

Lemma volume_spike_guarded_witness :
  exists r,
    analyze_stock Sample.yf Sample.lib_as_read "X" Sample.day = (Some r, [])
    /\ rec_AvgVolume10D r = Num (Qmean (repeat 200000 10))
    /\ rec_VolumeSpike r = Num (500000 / Qmean (repeat 200000 10)).
Proof.
  eexists. split; [vm_compute; reflexivity|]. split; [reflexivity|].
  refine (proj1 (proj2 (volume_spike_guarded Sample.yf Sample.lib_as_read
                          "X"%string Sample.day _ [] _)) _ _ _).
  - vm_compute. reflexivity.
  - reflexivity.
  - vm_compute. reflexivity.
Defined.

(** ** Ten-day average volume *)

(** C2.  For a symbol whose frame (answered for the window that ends the
    day after the analysis date) holds the analysis date and ten earlier
    bars, the average volume stored in its record is the arithmetic mean
    of Volume over the ten bars that end at the bar immediately before the
    analysis date; the analysis day's own volume is not among them. *)
Theorem avg_volume_10d_prior_mean yf ta symbol d data r written :
  yf symbol (d - 60)%Z (d + 1)%Z = Ok data ->
  window_ok (d - 60)%Z (d + 1)%Z data ->
  (10 <= List.length (rows_before d data))%nat ->
  analyze_stock yf ta symbol d = (Some r, written) ->
  rec_AvgVolume10D r
  = Num (Qmean (map (fun x => Volume (snd x)) (lastn 10 (rows_before d data))))
  /\ List.length (lastn 10 (rows_before d data)) = 10%nat
  /\ Forall (fun x => (fst x < d)%Z) (lastn 10 (rows_before d data)).
Proof.
  intros Hd Hw Hlen H.
  destruct (analyze_stock_some yf ta symbol d r written H)
    as [data' [today' [prev [avg I]]]].
  destruct I as [Hd' [Hc [_ [_ [Ha [_ [_ [_ [_ [Havg _]]]]]]]]]].
  rewrite Hd in Hd'. injection Hd' as <-.
  apply index_contains_true in Hc.
  destruct (window_split _ _ _ Hw Hc) as [prior [today [E HF]]].
  subst data. rewrite rows_before_app_last in * by exact HF.
  rewrite avg_volume_snoc in Ha by lia.
  destruct (Nat.ltb_spec (List.length prior) 10); [lia|].
  injection Ha as <-. split; [exact Havg|]. split.
  - unfold lastn. rewrite length_skipn. lia.
  - unfold lastn. rewrite Forall_forall in *. intros x Hx. apply HF.
    rewrite <- (firstn_skipn (List.length prior - 10) prior).
    apply in_or_app. right. exact Hx.
Qed.

Lemma sample_window_X :
  window_ok (Sample.day - 60)%Z (Sample.day + 1)%Z
            (Sample.in_window (Sample.day - 60)%Z (Sample.day + 1)%Z Sample.frame_X).
Proof. apply window_okb_sound. vm_compute. reflexivity. Qed.

Lemma avg_volume_10d_prior_mean_witness :
  exists r,
    analyze_stock Sample.yf Sample.lib_as_read "X" Sample.day = (Some r, [])
    /\ rec_AvgVolume10D r
       = Num (Qmean (map (fun x => Volume (snd x))
                         (lastn 10 (rows_before Sample.day
                            (Sample.in_window (Sample.day - 60)%Z
                               (Sample.day + 1)%Z Sample.frame_X))))).
Proof.
  eexists. split; [vm_compute; reflexivity|].
  refine (proj1 (avg_volume_10d_prior_mean Sample.yf Sample.lib_as_read
                   "X"%string Sample.day _ _ [] _ _ _ _)).
  - reflexivity.
  - exact sample_window_X.
  - vm_compute. lia.
  - vm_compute. reflexivity.
Defined.

(** ** Close above the previous high *)

Lemma is_last_before_snoc (d : date) (prior : PriceFrame) (today p : Bar) :
  Forall (fun r => (fst r < d)%Z) prior ->
  is_last_before d (prior ++ [(d, today)]) p
  <-> exists front dp, prior = front ++ [(dp, p)].
Proof.
  intros HF. split.
  - intros [front [dp [back [E [Hlt Hback]]]]].
    destruct back as [|x back' _] using rev_ind.
    + apply app_inj_tail in E. destruct E as [_ E]. injection E as E _. lia.
    + replace (front ++ (dp, p) :: back' ++ [x])
        with ((front ++ (dp, p) :: back') ++ [x]) in E
        by (rewrite <- app_assoc; reflexivity).
      apply app_inj_tail in E. destruct E as [E _].
      destruct back' as [|y back''].
      * exists front, dp. exact E.
      * exfalso. apply Forall_inv in Hback. simpl in Hback.
        rewrite Forall_forall in HF. specialize (HF y). 
        assert (In y prior).
        { rewrite E. apply in_or_app. right. right. left. reflexivity. }
        specialize (HF H). lia.
  - intros [front [dp ->]]. exists front, dp, [(d, today)].
    split; [rewrite <- app_assoc; reflexivity|]. split.
    + rewrite Forall_forall in HF. apply (HF (dp, p)).
      apply in_or_app. right. left. reflexivity.
    + constructor; [simpl; lia | constructor].
Qed.

(** C6.  For a frame that holds the analysis date (answered for the window
    that ends the day after it), lines 82-88 compute close above previous
    high as true exactly when the day's Close is strictly greater than the
    High of the last bar of the frame dated strictly before the analysis
    date, and as false when the frame holds no such bar (line 83 then
    gives no previous day).  A record the analyzer returns for the symbol
    stores that value. *)
Theorem close_above_prev_high_exact d data :
  window_ok (d - 60)%Z (d + 1)%Z data ->
  In d (map fst data) ->
  exists today prev,
    loc d data = Ok today
    /\ prev_day d data = Ok prev
    /\ (close_above_prev_high today prev = true
        <-> exists p, is_last_before d data p /\ High p < Close today)
    /\ (no_bar_before d data ->
        prev = None /\ close_above_prev_high today prev = false)
    /\ (forall yf ta symbol r written,
           yf symbol (d - 60)%Z (d + 1)%Z = Ok data ->
           analyze_stock yf ta symbol d = (Some r, written) ->
           rec_Close r = Close today
           /\ rec_CloseGtPrevHigh r = close_above_prev_high today prev).
Proof.
  intros Hw Hc.
  destruct (window_split _ _ _ Hw Hc) as [prior [today [E HF]]].
  subst data.
  assert (Ht : loc d (prior ++ [(d, today)]) = Ok today)
    by (apply loc_app_last; exact HF).
  assert (Hprev :
            exists prev,
              prev_day d (prior ++ [(d, today)]) = Ok prev
              /\ (close_above_prev_high today prev = true
                  <-> exists p, is_last_before d (prior ++ [(d, today)]) p
                                /\ High p < Close today)
              /\ (no_bar_before d (prior ++ [(d, today)]) ->
                  prev = None /\ close_above_prev_high today prev = false)).
  { destruct prior as [|x prior' _] using rev_ind.
    - exists None. split; [apply prev_day_none|]. simpl. split.
      + split; [discriminate|].
        intros [p [K _]]. apply (is_last_before_snoc d [] today p HF) in K.
        destruct K as [front [dp K]]. destruct front; discriminate.
      + intros _. split; reflexivity.
    - destruct x as [dp p]. exists (Some p).
      split; [apply prev_day_some; exact HF|]. simpl. split.
      + rewrite Qlt_bool_iff. split.
        * intros K. exists p. split; [|exact K].
          apply is_last_before_snoc; [exact HF|]. exists prior', dp. reflexivity.
        * intros [p' [K1 K2]]. apply is_last_before_snoc in K1; [|exact HF].
          destruct K1 as [front [dp' K1]]. apply app_inj_tail in K1.
          destruct K1 as [_ K1]. injection K1 as _ ->. exact K2.
      + intros K. exfalso. unfold no_bar_before in K.
        rewrite Forall_forall in K, HF.
        assert (Hin : In (dp, p) (prior' ++ [(dp, p)])).
        { apply in_or_app. right. left. reflexivity. }
        specialize (HF _ Hin).
        assert (Hin' : In (dp, p) ((prior' ++ [(dp, p)]) ++ [(d, today)])).
        { apply in_or_app. left. exact Hin. }
        specialize (K _ Hin'). simpl in *. lia. }
  destruct Hprev as [prev [Hp [Hiff Hnone]]].
  exists today, prev.
  split; [exact Ht|]. split; [exact Hp|]. split; [exact Hiff|].
  split; [exact Hnone|].
  intros yf ta symbol r written Hd H.
  destruct (analyze_stock_some yf ta symbol d r written H)
    as [data' [today' [prev' [avg I]]]].
  destruct I as [Hd' [_ [Ht' [Hp' [_ [_ [_ [Hcl [_ [_ [_ [_ [Hab _]]]]]]]]]]]]].
  rewrite Hd in Hd'. injection Hd' as <-.
  rewrite Ht in Ht'. injection Ht' as <-.
  rewrite Hp in Hp'. injection Hp' as <-.
  split; [exact Hcl | exact Hab].
Qed.

Lemma close_above_prev_high_exact_witness :
  (exists today,
      loc Sample.day Sample.frame_Z = Ok today
      /\ prev_day Sample.day Sample.frame_Z = Ok None
      /\ close_above_prev_high today None = false)
  /\ (exists today prev,
         loc Sample.day Sample.frame_X = Ok today
         /\ prev_day Sample.day Sample.frame_X = Ok prev
         /\ close_above_prev_high today prev = true).
Proof.
  split.
  - destruct (close_above_prev_high_exact Sample.day Sample.frame_Z)
      as [today [prev [H1 [H2 [_ [H4 _]]]]]].
    + apply window_okb_sound. vm_compute. reflexivity.
    + left. reflexivity.
    + assert (N : no_bar_before Sample.day Sample.frame_Z).
      { constructor; [simpl; lia | constructor]. }
      destruct (H4 N) as [-> H5].
      exists today. split; [exact H1|]. split; [exact H2 | exact H5].
  - destruct (close_above_prev_high_exact Sample.day Sample.frame_X)
      as [today [prev [H1 [H2 [H3 _]]]]].
    + apply window_okb_sound. vm_compute. reflexivity.
    + apply index_contains_true. vm_compute. reflexivity.
    + exists today, prev. split; [exact H1|]. split; [exact H2|].
      apply H3. exists Sample.earlier_bar. split.
      * exists (firstn 38 (Sample.history 39)), (Sample.day - 1)%Z,
          [(Sample.day, today)].
        assert (E : loc Sample.day Sample.frame_X = Ok Sample.today_bar)
          by (vm_compute; reflexivity).
        rewrite E in H1. injection H1 as <-.
        split; [vm_compute; reflexivity|]. split; [lia|].
        constructor; [simpl; lia | constructor].
      * assert (E : loc Sample.day Sample.frame_X = Ok Sample.today_bar)
          by (vm_compute; reflexivity).
        rewrite E in H1. injection H1 as <-. reflexivity.
Defined.

(** ** Symbols without a row *)

(** C7.  For a symbol whose fetched frame has no bar dated exactly the
    analysis date, the analyzer returns the no-data sentinel and writes
    nothing; whatever the symbol list, no row of the full table or of the
    candidate subset carries the symbol; and the loop goes on: the rows
    and the written lines of a list around the symbol are those of the
    part before it followed by those of the part after it. *)
Theorem no_bar_on_date_excluded yf ta date_str symbol d data :
  yf symbol (d - 60)%Z (d + 1)%Z = Ok data ->
  ~ In d (map fst data) ->
  analyze_stock yf ta symbol d = (None, [])
  /\ (forall symbols r,
         In r (full_table (scan yf ta date_str symbols d))
         \/ In r (candidate_subset (scan yf ta date_str symbols d)) ->
         rec_Symbol r <> symbol)
  /\ (forall before after,
         scan_symbols yf ta (before ++ symbol :: after) d
         = (fst (scan_symbols yf ta before d) ++ fst (scan_symbols yf ta after d),
            snd (scan_symbols yf ta before d) ++ snd (scan_symbols yf ta after d))).
Proof.
  intros Hd Hno.
  assert (Hn : analyze_stock yf ta symbol d = (None, [])).
  { unfold analyze_stock, analyze_body. rewrite Hd. simpl.
    apply index_contains_false in Hno. rewrite Hno. reflexivity. }
  split; [exact Hn|]. split.
  - apply (sentinel_no_row yf ta date_str symbol d [] Hn).
  - intros before after.
    rewrite (scan_symbols_skip yf ta symbol d [] Hn). reflexivity.
Qed.

Lemma no_bar_on_date_excluded_witness :
  analyze_stock Sample.yf Sample.lib_as_read "Y" Sample.day = (None, [])
  /\ fst (scan_symbols Sample.yf Sample.lib_as_read ["X"; "Y"; "X"]%string Sample.day)
     = fst (scan_symbols Sample.yf Sample.lib_as_read ["X"]%string Sample.day)
       ++ fst (scan_symbols Sample.yf Sample.lib_as_read ["X"]%string Sample.day).
Proof.
  assert (Hno : ~ In Sample.day
                     (map fst (Sample.in_window (Sample.day - 60)%Z
                                 (Sample.day + 1)%Z Sample.frame_Y))).
  { intros K. apply index_contains_true in K. vm_compute in K. discriminate. }
  destruct (no_bar_on_date_excluded Sample.yf Sample.lib_as_read Sample.date_str
              "Y"%string Sample.day _ eq_refl Hno) as [H1 [_ H3]].
  split; [exact H1|].
  change ["X"; "Y"; "X"]%string with (["X"%string] ++ "Y"%string :: ["X"%string]).
  rewrite (H3 ["X"%string] ["X"%string]). reflexivity.
Defined.

(** ** Failures of one symbol *)

(** C8.  Whatever exception the fetch or the computation of a symbol
    raises, the analyzer catches it: it returns the no-data sentinel, the
    same value as for a missing bar, and writes one line made of the
    symbol and the exception's message.  The loop goes on with the other
    symbols, the symbol has no row, and the only exception a run can end
    with is one raised by the index fetch. *)
Theorem per_symbol_failure_contained yf ta date_str symbol d e :
  analyze_body yf ta symbol d = Raise e ->
  analyze_stock yf ta symbol d
  = (None, [("Error analyzing " ++ symbol ++ ": " ++ str_exn e)%string])
  /\ (forall before after,
         scan_symbols yf ta (before ++ symbol :: after) d
         = (fst (scan_symbols yf ta before d) ++ fst (scan_symbols yf ta after d),
            snd (scan_symbols yf ta before d)
            ++ [("Error analyzing " ++ symbol ++ ": " ++ str_exn e)%string]
            ++ snd (scan_symbols yf ta after d)))
  /\ (forall symbols r,
         In r (full_table (scan yf ta date_str symbols d))
         \/ In r (candidate_subset (scan yf ta date_str symbols d)) ->
         rec_Symbol r <> symbol)
  /\ (forall symbols e',
         scan yf ta date_str symbols d = Uncaught e' ->
         get_index_data yf d = Raise e').
Proof.
  intros He.
  pose proof (analyze_stock_raise yf ta symbol d e He) as Hn.
  unfold error_line in Hn.
  split; [exact Hn|]. split; [|split].
  - intros before after. apply (scan_symbols_skip yf ta symbol d _ Hn).
  - apply (sentinel_no_row yf ta date_str symbol d _ Hn).
  - intros symbols e'. unfold scan.
    destruct (get_index_data yf d) as [index_data|e0].
    + destruct (index_contains d index_data) eqn:Hc; simpl; [|discriminate].
      unfold loc, index_contains in *.
      destruct (find (fun r0 => (fst r0 =? d)%Z) index_data) eqn:Hf.
      * destruct (scan_symbols yf ta symbols d) as [[|x rs] ws]; discriminate.
      * exfalso. apply existsb_exists in Hc. destruct Hc as [x [Hx1 Hx2]].
        apply (find_none _ _ Hf) in Hx1. congruence.
    + intros K. injection K as ->. reflexivity.
Qed.

Lemma per_symbol_failure_contained_witness :
  analyze_stock Sample.yf Sample.lib_as_read "ERR" Sample.day
  = (None, ["Error analyzing ERR: connection reset"%string])
  /\ scan_symbols Sample.yf Sample.lib_as_read ["ERR"; "X"]%string Sample.day
     = (fst (scan_symbols Sample.yf Sample.lib_as_read ["X"]%string Sample.day),
        ["Error analyzing ERR: connection reset"%string]).
Proof.
  destruct (per_symbol_failure_contained Sample.yf Sample.lib_as_read
              Sample.date_str "ERR"%string Sample.day
              (ProviderError "connection reset") eq_refl) as [H1 [H2 _]].
  split; [exact H1|].
  change ["ERR"; "X"]%string with ([] ++ "ERR"%string :: ["X"%string]).
  rewrite (H2 [] ["X"%string]). vm_compute. reflexivity.
Defined.

(** ** The index gate *)

Lemma loc_in_nodup (d : date) (data : PriceFrame) (b : Bar) :
  NoDup (map fst data) -> In (d, b) data -> loc d data = Ok b.
Proof.
  unfold loc. induction data as [|[dr br] rest IH]; simpl; intros Hn Hin.
  - contradiction.
  - apply NoDup_cons_iff in Hn. destruct Hn as [Hnot Hn].
    destruct Hin as [E|Hin].
    + injection E as -> ->. rewrite Z.eqb_refl. reflexivity.
    + destruct (Z.eqb_spec dr d) as [->|Hne].
      * exfalso. apply Hnot. apply in_map_iff. exists (d, b). auto.
      * apply IH; assumption.
Qed.

(** C9.  When the index frame has no bar dated exactly the analysis date
    the run stops with the warning and without any table.  Otherwise the
    index percent change is computed once, from the index bar of that
    date, as (Close - Open) / Open * 100, and that one value is the one
    every row of the run is filtered with.  The missing index bar is the
    only way a run stops with a warning. *)
Theorem index_gate yf ta date_str symbols d index_data :
  get_index_data yf d = Ok index_data ->
  NoDup (map fst index_data) ->
  (~ In d (map fst index_data) ->
   scan yf ta date_str symbols d
   = Stopped ("No index data available for " ++ date_str d
              ++ ". Please select a valid trading day.")%string
   /\ full_table (scan yf ta date_str symbols d) = []
   /\ candidate_subset (scan yf ta date_str symbols d) = [])
  /\ (forall warning, scan yf ta date_str symbols d = Stopped warning ->
                      ~ In d (map fst index_data))
  /\ (forall b, In (d, b) index_data ->
        let idx := fmul (fdiv (Num (Close b - Open b)) (Num (Open b))) (Num 100) in
        (~ Open b == 0 -> idx = Num ((Close b - Open b) / Open b * 100))
        /\ (scan yf ta date_str symbols d
            = NoResults idx (snd (scan_symbols yf ta symbols d)) no_results_warning
            \/ scan yf ta date_str symbols d
               = Tables idx (fst (scan_symbols yf ta symbols d))
                        (btst_stocks idx (fst (scan_symbols yf ta symbols d)))
                        (snd (scan_symbols yf ta symbols d)))).
Proof.
  intros Hi Hn. split; [|split].
  - intros Hno. apply index_contains_false in Hno.
    unfold scan. rewrite Hi, Hno. simpl. auto.
  - intros warning. unfold scan. rewrite Hi.
    destruct (index_contains d index_data) eqn:Hc; simpl.
    + destruct (loc d index_data) as [b|e]; [|discriminate].
      destruct (scan_symbols yf ta symbols d) as [[|x rs] ws]; discriminate.
    + intros _. apply index_contains_false. exact Hc.
  - intros b Hb idx. split.
    + intros Ho. unfold idx. rewrite fdiv_Num by exact Ho. reflexivity.
    + assert (Hc : index_contains d index_data = true).
      { apply index_contains_true. apply in_map_iff. exists (d, b). auto. }
      unfold scan. rewrite Hi, Hc. simpl.
      rewrite (loc_in_nodup d index_data b Hn Hb).
      fold idx. unfold idx_pct_change_of. fold idx.
      destruct (scan_symbols yf ta symbols d) as [[|x rs] ws]; simpl; auto.
Qed.

Lemma index_gate_witness :
  scan Sample.yf Sample.lib_as_read Sample.date_str ["X"]%string (Sample.day + 1)%Z
  = Stopped "No index data available for 2024-10-05. Please select a valid trading day."
  /\ fmul (fdiv (Num (20100 - 20000)) (Num 20000)) (Num 100)
     = Num ((20100 - 20000) / 20000 * 100).
Proof.
  split.
  - refine (proj1 (proj1 (index_gate Sample.yf Sample.lib_as_read Sample.date_str
                            ["X"%string] (Sample.day + 1)%Z [] eq_refl _) _)).
    + constructor.
    + simpl. tauto.
  - refine (proj1 (proj2 (proj2 (index_gate Sample.yf Sample.lib_as_read
                            Sample.date_str
                            ["X"%string] Sample.day [(Sample.day, Sample.index_bar)]
                            eq_refl _)) Sample.index_bar _) _).
    + constructor; [simpl; tauto | constructor].
    + left. reflexivity.
    + simpl. intros K. discriminate.
Defined.

(** ** A one-bar series *)

(** C10.  For a symbol whose fetched frame is the single bar of the
    analysis date, line 83 finds no previous day (close above previous
    high would be false), line 91 then indexes the second-to-last element
    of a one-element series and raises, and the analyzer ends in its
    handler: the symbol gets the sentinel and the error line, and no row
    in either table, instead of a row with volume spike 0. *)
Theorem single_bar_series_excluded yf ta date_str symbol d b :
  yf symbol (d - 60)%Z (d + 1)%Z = Ok [(d, b)] ->
  prev_day d [(d, b)] = Ok None
  /\ avg_volume [(d, b)] = Raise (IndexError oob)
  /\ analyze_stock yf ta symbol d
     = (None, [error_line symbol (IndexError oob)])
  /\ (forall symbols r,
         In r (full_table (scan yf ta date_str symbols d))
         \/ In r (candidate_subset (scan yf ta date_str symbols d)) ->
         rec_Symbol r <> symbol).
Proof.
  intros Hd.
  assert (Hn : analyze_stock yf ta symbol d
               = (None, [error_line symbol (IndexError oob)])).
  { assert (Hc : index_contains d [(d, b)] = true).
    { unfold index_contains. simpl. rewrite Z.eqb_refl. reflexivity. }
    assert (Hl : loc d [(d, b)] = Ok b).
    { unfold loc. simpl. rewrite Z.eqb_refl. reflexivity. }
    unfold analyze_stock, analyze_body. rewrite Hd.
    cbv beta iota delta [bind]. rewrite Hc. simpl negb. cbv beta iota.
    rewrite Hl. cbv beta iota. rewrite prev_day_none. cbv beta iota.
    rewrite avg_volume_single. reflexivity. }
  split; [apply prev_day_none|]. split; [reflexivity|]. split; [exact Hn|].
  apply (sentinel_no_row yf ta date_str symbol d _ Hn).
Qed.

Lemma single_bar_series_excluded_witness :
  analyze_stock Sample.yf Sample.lib_as_read "Z" Sample.day
  = (None, ["Error analyzing Z: single positional indexer is out-of-bounds"%string]).
Proof.
  apply (single_bar_series_excluded Sample.yf Sample.lib_as_read Sample.date_str
           "Z"%string Sample.day Sample.today_bar eq_refl).
Defined.

(** ** The MACD fields *)

(** C3.  With the indicator library as pandas_ta is, whose MACD frame has
    the columns MACD_12_26_9, MACDh_12_26_9 and MACDs_12_26_9, the lookup
    of the signal line under the key of line 122 finds no column: the
    analyzer returns the sentinel for every symbol and date, however much
    history the symbol has, and never a record with the two MACD fields. *)
Theorem macd_signal_key_missing yf ta :
  (forall closes f, ta_macd ta closes = Ok (Some f) ->
                    Forall (fun row => map fst row = pandas_ta_macd_columns) f) ->
  forall symbol d, fst (analyze_stock yf ta symbol d) = None.
Proof.
  intros Hcols symbol d.
  destruct (analyze_stock yf ta symbol d) as [[r|] w] eqn:E; [|reflexivity].
  exfalso.
  destruct (analyze_stock_some_macd yf ta symbol d r w E)
    as [data [f [row [_ [Hf [Hrow [_ Hsig]]]]]]].
  specialize (Hcols _ _ Hf). rewrite Forall_forall in Hcols.
  apply iloc_neg_in in Hrow. specialize (Hcols _ Hrow).
  rewrite getitem_missing in Hsig; [discriminate|].
  rewrite Hcols. unfold pandas_ta_macd_columns. simpl.
  intros [K|[K|[K|[]]]]; discriminate.
Qed.

Lemma sample_lib_pandas_ta_columns (closes : list Q) (f : list Row) :
  ta_macd Sample.lib_pandas_ta closes = Ok (Some f) ->
  Forall (fun row => map fst row = pandas_ta_macd_columns) f.
Proof.
  simpl. intros H. injection H as <-. unfold Sample.frame_with.
  rewrite Forall_forall. intros row Hrow. apply in_map_iff in Hrow.
  destruct Hrow as [c [<- _]]. reflexivity.
Qed.

(** The scenario symbol has forty bars up to the analysis date and the
    library answers every indicator call; the handler writes the missing
    key as the error. *)
Lemma macd_signal_key_missing_witness :
  List.length (Sample.in_window (Sample.day - 60)%Z (Sample.day + 1)%Z
                                Sample.frame_X) = 40%nat
  /\ fst (analyze_stock Sample.yf Sample.lib_pandas_ta "X" Sample.day) = None
  /\ analyze_stock Sample.yf Sample.lib_pandas_ta "X" Sample.day
     = (None, ["Error analyzing X: 'MACDs_9'"%string])
  /\ (exists f row v,
         ta_macd Sample.lib_pandas_ta
                 (map (fun x => Close (snd x))
                      (Sample.in_window (Sample.day - 60)%Z (Sample.day + 1)%Z
                                        Sample.frame_X)) = Ok (Some f)
         /\ iloc_neg 1 f = Ok row
         /\ getitem "MACD_12_26_9" row = Ok v
         /\ getitem "MACDs_12_26_9" row = Ok v
         /\ getitem "MACDs_9" row = Raise (KeyError "MACDs_9")).
Proof.
  split; [vm_compute; reflexivity|].
  split; [apply (macd_signal_key_missing Sample.yf Sample.lib_pandas_ta
                   sample_lib_pandas_ta_columns "X"%string Sample.day)|].
  split; [vm_compute; reflexivity|].
  eexists _, _, _. split; [reflexivity|].
  split; [vm_compute; reflexivity|].
  split; [vm_compute; reflexivity|].
  split; vm_compute; reflexivity.
Defined.

(** * Further properties of the analyzer and of the scan *)

(** ** Everything a returned record was built from *)

Lemma loc_in (d : date) (data : PriceFrame) (b : Bar) :
  loc d data = Ok b -> In (d, b) data.
Proof.
  unfold loc. destruct (find (fun r => (fst r =? d)%Z) data) as [[dr br]|] eqn:E;
    [|discriminate].
  intros H. injection H as <-. apply find_some in E. destruct E as [Hin Hd].
  simpl in Hd. apply Z.eqb_eq in Hd. subst dr. exact Hin.
Qed.

Lemma analyze_stock_some_full yf ta symbol d r written :
  analyze_stock yf ta symbol d = (Some r, written) ->
  exists data today prev avg s mf bf mrow brow,
    yf symbol (d - 60)%Z (d + 1)%Z = Ok data
    /\ loc d data = Ok today
    /\ prev_day d data = Ok prev
    /\ avg_volume data = Ok avg
    /\ ta_rsi ta (closes_of data) 14 = Ok (Some s)
    /\ iloc_neg 1 s = Ok (rec_RSI14 r)
    /\ ta_macd ta (closes_of data) = Ok (Some mf)
    /\ iloc_neg 1 mf = Ok mrow
    /\ ta_bbands ta (closes_of data) 20 = Ok (Some bf)
    /\ iloc_neg 1 bf = Ok brow
    /\ getitem "MACD_12_26_9" mrow = Ok (rec_MACD r)
    /\ getitem "MACDs_9" mrow = Ok (rec_MACDSignal r)
    /\ getitem "BBU_20_2.0" brow = Ok (rec_BBUpper r)
    /\ getitem "BBM_20_2.0" brow = Ok (rec_BBMiddle r)
    /\ getitem "BBL_20_2.0" brow = Ok (rec_BBLower r)
    /\ r = mkRecord symbol (Open today) (High today) (Low today) (Close today)
                    (Volume today) avg (pct_change today)
                    (pct_close_near_high today)
                    (close_above_prev_high today prev)
                    (volume_spike today avg) (intraday_range_pct today)
                    (rec_RSI14 r) (rec_MACD r) (rec_MACDSignal r)
                    (rec_BBUpper r) (rec_BBMiddle r) (rec_BBLower r)
                    (fgt (Num (Close today)) (rec_BBUpper r)).
Proof.
  unfold analyze_stock.
  destruct (analyze_body yf ta symbol d) as [o|e] eqn:E;
    [|intros H; discriminate].
  intros H. injection H as -> <-.
  unfold analyze_body in E. fold (closes_of) in E.
  apply bind_ok in E. destruct E as [data [Hd E]].
  destruct (index_contains d data) eqn:Hc; simpl in E; [|discriminate].
  apply bind_ok in E. destruct E as [today [Ht E]].
  apply bind_ok in E. destruct E as [prev [Hp E]].
  apply bind_ok in E. destruct E as [avg [Ha E]].
  apply bind_ok in E. destruct E as [rsi [Hr E]].
  apply bind_ok in E. destruct E as [macd [Hm E]].
  apply bind_ok in E. destruct E as [bb [Hb E]].
  apply bind_ok in E. destruct E as [ml [Hml E]].
  apply bind_ok in E. destruct E as [ms [Hms E]].
  apply bind_ok in E. destruct E as [bu [Hbu E]].
  apply bind_ok in E. destruct E as [bm [Hbm E]].
  apply bind_ok in E. destruct E as [bl [Hbl E]].
  apply bind_ok in E. destruct E as [bu' [Hbu' E]].
  rewrite Hbu in Hbu'. injection Hbu' as <-.
  injection E as <-. simpl.
  apply bind_ok in Hr. destruct Hr as [gs [Hs Hsv]].
  destruct gs as [s|]; simpl in Hsv; [|discriminate].
  apply bind_ok in Hm. destruct Hm as [gm [Hmf Hmr]].
  destruct gm as [mf|]; simpl in Hmr; [|discriminate].
  apply bind_ok in Hb. destruct Hb as [gb [Hbf Hbr]].
  destruct gb as [bf|]; simpl in Hbr; [|discriminate].
  exists data, today, prev, avg, s, mf, bf, macd, bb.
  repeat (split; [assumption|]). reflexivity.
Qed.

(** ** The row is the bar of the exact date *)

(** The record of a symbol carries the symbol and the five fields of a row
    of its fetched frame dated exactly the analysis date; no other date's
    bar is ever reported. *)
Theorem record_is_bar_of_exact_date yf ta symbol d r written :
  analyze_stock yf ta symbol d = (Some r, written) ->
  rec_Symbol r = symbol
  /\ exists data,
      yf symbol (d - 60)%Z (d + 1)%Z = Ok data
      /\ In (d, mkBar (rec_Open r) (rec_High r) (rec_Low r) (rec_Close r)
                      (rec_Volume r)) data.
Proof.
  intros H.
  destruct (analyze_stock_some_full yf ta symbol d r written H)
    as [data [today [prev [avg [s [mf [bf [mrow [brow I]]]]]]]]].
  destruct I as [Hd [Ht [_ [_ [_ [_ [_ [_ [_ [_ [_ [_ [_ [_ [_ E]]]]]]]]]]]]]]].
  rewrite E. simpl. split; [reflexivity|]. exists data. split; [exact Hd|].
  apply loc_in in Ht. destruct today. exact Ht.
Qed.

Lemma record_is_bar_of_exact_date_witness :
  exists r,
    analyze_stock Sample.yf Sample.lib_as_read "X" Sample.day = (Some r, [])
    /\ rec_Symbol r = "X"%string.
Proof.
  eexists. split; [vm_compute; reflexivity|].
  refine (proj1 (record_is_bar_of_exact_date Sample.yf Sample.lib_as_read
                   "X"%string Sample.day _ [] _)).
  vm_compute. reflexivity.
Defined.

(** ** Indicators are read at the row of the analysis date *)

Lemma iloc_neg_1_nth {A : Type} (s : list A) (a : A) (n : nat) :
  iloc_neg 1 s = Ok a -> List.length s = S n -> nth_error s n = Some a.
Proof.
  unfold iloc_neg. intros H L. rewrite L in H. simpl in H.
  rewrite Nat.sub_0_r in H.
  destruct (nth_error s n); [injection H as ->; reflexivity | discriminate].
Qed.

(** When the provider keeps to the requested window and the library
    answers with a series (a frame) on the index it was given, the row of
    the analysis date is the last one, and RSI, the MACD line and the three
    Bollinger values of the record are the library's values at that row. *)
Theorem indicators_at_analysis_row yf ta symbol d data r written :
  yf symbol (d - 60)%Z (d + 1)%Z = Ok data ->
  window_ok (d - 60)%Z (d + 1)%Z data ->
  analyze_stock yf ta symbol d = (Some r, written) ->
  exists n today,
    nth_error data n = Some (d, today)
    /\ List.length data = S n
    /\ (forall s, ta_rsi ta (closes_of data) 14 = Ok (Some s) ->
                  List.length s = List.length data ->
                  nth_error s n = Some (rec_RSI14 r))
    /\ (forall f, ta_macd ta (closes_of data) = Ok (Some f) ->
                  List.length f = List.length data ->
                  exists row, nth_error f n = Some row
                              /\ getitem "MACD_12_26_9" row = Ok (rec_MACD r))
    /\ (forall f, ta_bbands ta (closes_of data) 20 = Ok (Some f) ->
                  List.length f = List.length data ->
                  exists row, nth_error f n = Some row
                              /\ getitem "BBU_20_2.0" row = Ok (rec_BBUpper r)
                              /\ getitem "BBM_20_2.0" row = Ok (rec_BBMiddle r)
                              /\ getitem "BBL_20_2.0" row = Ok (rec_BBLower r)).
Proof.
  intros Hd Hw H.
  destruct (analyze_stock_some_full yf ta symbol d r written H)
    as [data' [today' [prev [avg [s [mf [bf [mrow [brow I]]]]]]]]].
  destruct I as [Hd' [Ht [_ [_ [Hs [Hsv [Hmf [Hmr [Hbf [Hbr
                [Hml [_ [Hbu [Hbm [Hbl _]]]]]]]]]]]]]]].
  rewrite Hd in Hd'. injection Hd' as <-.
  assert (Hc : In d (map fst data)).
  { apply loc_in in Ht. apply in_map_iff. exists (d, today'). auto. }
  destruct (window_split _ _ _ Hw Hc) as [prior [today [E HF]]].
  exists (List.length prior), today.
  assert (L : List.length data = S (List.length prior)).
  { rewrite E, length_app. simpl. lia. }
  split; [|split; [exact L|split; [|split]]].
  - rewrite E, nth_error_app2 by lia. rewrite Nat.sub_diag. reflexivity.
  - intros s0 Hs0 Ls. rewrite Hs in Hs0. injection Hs0 as <-.
    apply iloc_neg_1_nth; [exact Hsv | congruence].
  - intros f Hf Lf. rewrite Hmf in Hf. injection Hf as <-.
    exists mrow. split; [|exact Hml].
    apply iloc_neg_1_nth; [exact Hmr | congruence].
  - intros f Hf Lf. rewrite Hbf in Hf. injection Hf as <-.
    exists brow. split; [|auto].
    apply iloc_neg_1_nth; [exact Hbr | congruence].
Qed.

Lemma indicators_at_analysis_row_witness :
  exists r n today,
    analyze_stock Sample.yf Sample.lib_as_read "X" Sample.day = (Some r, [])
    /\ nth_error (Sample.in_window (Sample.day - 60)%Z (Sample.day + 1)%Z
                                   Sample.frame_X) n
       = Some (Sample.day, today)
    /\ n = 39%nat.
Proof.
  destruct (indicators_at_analysis_row Sample.yf Sample.lib_as_read "X"%string
              Sample.day _ _ [] eq_refl sample_window_X eq_refl)
    as [n [today [H1 [H2 _]]]].
  eexists _, n, today. split; [vm_compute; reflexivity|]. split; [exact H1|].
  vm_compute in H2. injection H2 as H2. symmetry. exact H2.
Defined.

(** ** The loop and its two outputs *)

Lemma analyze_stock_shape yf ta symbol d :
  (exists r, analyze_stock yf ta symbol d = (Some r, [])
             /\ rec_Symbol r = symbol)
  \/ analyze_stock yf ta symbol d = (None, [])
  \/ (exists e, analyze_body yf ta symbol d = Raise e
                /\ analyze_stock yf ta symbol d = (None, [error_line symbol e])).
Proof.
  destruct (analyze_stock yf ta symbol d) as [[r|] w] eqn:E.
  - left. exists r.
    destruct (analyze_stock_some yf ta symbol d r w E)
      as [data [today [prev [avg I]]]].
    destruct I as [_ [_ [_ [_ [_ [-> [Hs _]]]]]]]. auto.
  - right. unfold analyze_stock in E.
    destruct (analyze_body yf ta symbol d) as [o|e].
    + left. injection E as -> <-. reflexivity.
    + right. exists e. injection E as <-. auto.
Qed.

Lemma scan_tables_inv yf ta date_str symbols d idx df btst written :
  scan yf ta date_str symbols d = Tables idx df btst written ->
  df = fst (scan_symbols yf ta symbols d)
  /\ written = snd (scan_symbols yf ta symbols d)
  /\ btst = btst_stocks idx df
  /\ exists index_data b,
      get_index_data yf d = Ok index_data
      /\ loc d index_data = Ok b
      /\ idx = idx_pct_change_of b.
Proof.
  unfold scan. destruct (get_index_data yf d) as [index_data|e]; [|discriminate].
  destruct (index_contains d index_data); simpl; [|discriminate].
  destruct (loc d index_data) as [b|e] eqn:L; [|discriminate].
  destruct (scan_symbols yf ta symbols d) as [[|x rs] ws]; [discriminate|].
  intros H. injection H as <- <- <- <-. simpl.
  repeat split. exists index_data, b. auto.
Qed.

Lemma scan_symbols_cons yf ta symbol rest d :
  scan_symbols yf ta (symbol :: rest) d
  = (match fst (analyze_stock yf ta symbol d) with
     | Some r => r :: fst (scan_symbols yf ta rest d)
     | None => fst (scan_symbols yf ta rest d)
     end,
     snd (analyze_stock yf ta symbol d) ++ snd (scan_symbols yf ta rest d)).
Proof.
  simpl. destruct (analyze_stock yf ta symbol d) as [o w].
  destruct (scan_symbols yf ta rest d) as [rs ws]. reflexivity.
Qed.

Lemma table_symbols_filter yf ta symbols d :
  map rec_Symbol (fst (scan_symbols yf ta symbols d))
  = filter (has_record yf ta d) symbols.
Proof.
  induction symbols as [|s rest IH]; [reflexivity|].
  rewrite scan_symbols_cons. simpl fst. simpl filter. unfold has_record at 1.
  destruct (analyze_stock_shape yf ta s d) as [[r [E Hs]]|[E|[e [_ E]]]];
    rewrite E; simpl; rewrite IH; [rewrite Hs|..]; reflexivity.
Qed.

(** The full table lists the symbols that got a record in the order of the
    input list, once per occurrence: nothing is reordered and repeated
    symbols are not merged. *)
Theorem table_keeps_input_order yf ta date_str symbols d idx df btst written :
  scan yf ta date_str symbols d = Tables idx df btst written ->
  map rec_Symbol df = filter (has_record yf ta d) symbols.
Proof.
  intros H. apply scan_tables_inv in H. destruct H as [-> _].
  apply table_symbols_filter.
Qed.

Lemma table_keeps_input_order_witness :
  exists idx df btst written,
    scan Sample.yf Sample.lib_as_read Sample.date_str
         ["W"; "Y"; "X"; "ERR"; "W"]%string Sample.day
    = Tables idx df btst written
    /\ map rec_Symbol df = ["W"; "X"; "W"]%string.
Proof.
  eexists _, _, _, _. split; [vm_compute; reflexivity|].
  erewrite (table_keeps_input_order Sample.yf Sample.lib_as_read Sample.date_str
              ["W"; "Y"; "X"; "ERR"; "W"]%string Sample.day)
    by (vm_compute; reflexivity).
  vm_compute. reflexivity.
Defined.

Lemma scan_symbols_counts yf ta symbols d :
  (List.length (fst (scan_symbols yf ta symbols d))
   + List.length (snd (scan_symbols yf ta symbols d))
   <= List.length symbols)%nat.
Proof.
  induction symbols as [|s rest IH]; [simpl; lia|].
  rewrite scan_symbols_cons. simpl fst. simpl snd. rewrite length_app.
  destruct (analyze_stock_shape yf ta s d) as [[r [E Hs]]|[E|[e [_ E]]]];
    rewrite E; simpl; lia.
Qed.

(** Each symbol gives at most one row or one error line, never both: the
    rows and the written lines together are no more than the symbols (the
    "Total Stocks Analyzed" of line 165), and the candidates (line 166) are
    no more than the rows. *)
Theorem rows_and_lines_bounded yf ta date_str symbols d idx df btst written :
  scan yf ta date_str symbols d = Tables idx df btst written ->
  (List.length df + List.length written <= List.length symbols)%nat
  /\ (List.length btst <= List.length df)%nat
  /\ (1 <= List.length df)%nat.
Proof.
  intros H.
  assert (Hne : df <> []).
  { unfold scan in H.
    destruct (get_index_data yf d) as [index_data|e]; [|discriminate].
    destruct (index_contains d index_data); simpl in H; [|discriminate].
    destruct (loc d index_data) as [b|e]; [|discriminate].
    destruct (scan_symbols yf ta symbols d) as [[|x rs] ws]; [discriminate|].
    injection H as _ <- _ _. discriminate. }
  apply scan_tables_inv in H. destruct H as [-> [-> [-> _]]].
  split; [apply scan_symbols_counts|]. split.
  - unfold btst_stocks. apply filter_length_le.
  - destruct (fst (scan_symbols yf ta symbols d)); [congruence | simpl; lia].
Qed.

Lemma rows_and_lines_bounded_witness :
  exists idx df btst written,
    scan Sample.yf Sample.lib_as_read Sample.date_str
         ["W"; "Y"; "X"; "ERR"; "Z"]%string Sample.day
    = Tables idx df btst written
    /\ (List.length df + List.length written <= 5)%nat
    /\ (List.length btst <= List.length df)%nat.
Proof.
  eexists _, _, _, _. split; [vm_compute; reflexivity|].
  refine ((fun K => conj (proj1 K) (proj1 (proj2 K)))
            (rows_and_lines_bounded Sample.yf Sample.lib_as_read Sample.date_str
               ["W"; "Y"; "X"; "ERR"; "Z"]%string Sample.day _ _ _ _ _)).
  vm_compute. reflexivity.
Defined.

(** Every line the loop writes is the error line of a symbol of the list
    whose analysis raised; a symbol without data on the date writes
    nothing. *)
Theorem written_lines_are_errors yf ta symbols d line :
  In line (snd (scan_symbols yf ta symbols d)) ->
  exists symbol e,
    In symbol symbols
    /\ analyze_body yf ta symbol d = Raise e
    /\ line = ("Error analyzing " ++ symbol ++ ": " ++ str_exn e)%string.
Proof.
  induction symbols as [|s rest IH]; [simpl; contradiction|].
  rewrite scan_symbols_cons. simpl snd. intros H. apply in_app_or in H.
  destruct H as [H|H].
  - destruct (analyze_stock_shape yf ta s d) as [[r [E Hs]]|[E|[e [He E]]]];
      rewrite E in H; simpl in H; try contradiction.
    destruct H as [<-|[]]. exists s, e. simpl. auto.
  - destruct (IH H) as [s' [e [H1 H2]]]. exists s', e. simpl. tauto.
Qed.

Lemma written_lines_are_errors_witness :
  exists symbol e,
    In symbol ["X"; "ERR"; "Y"]%string
    /\ analyze_body Sample.yf Sample.lib_as_read symbol Sample.day = Raise e
    /\ "Error analyzing ERR: connection reset"%string
       = ("Error analyzing " ++ symbol ++ ": " ++ str_exn e)%string.
Proof.
  apply (written_lines_are_errors Sample.yf Sample.lib_as_read
           ["X"; "ERR"; "Y"]%string Sample.day).
  vm_compute. left. reflexivity.
Defined.

Lemma scan_symbols_in_conv yf ta symbols d symbol r written :
  In symbol symbols ->
  analyze_stock yf ta symbol d = (Some r, written) ->
  In r (fst (scan_symbols yf ta symbols d)).
Proof.
  induction symbols as [|s rest IH]; simpl; [contradiction|].
  intros Hin E.
  destruct (analyze_stock yf ta s d) as [o w] eqn:Es.
  destruct (scan_symbols yf ta rest d) as [rs ws]. simpl in *.
  destruct Hin as [->|Hin].
  - rewrite E in Es. injection Es as <- <-. left. reflexivity.
  - specialize (IH Hin E). destruct o; [right|]; exact IH.
Qed.

(** A row is a candidate of a scan exactly when it is the record of some
    symbol of the list and passes the filter with the scan's index change:
    whether a symbol is a candidate does not depend on the other symbols
    of the list. *)
Theorem candidate_is_record_passing_filter yf ta date_str symbols d idx df btst written :
  scan yf ta date_str symbols d = Tables idx df btst written ->
  forall r,
    In r btst <->
    exists symbol,
      In symbol symbols
      /\ analyze_stock yf ta symbol d = (Some r, [])
      /\ btst_criteria idx r = true.
Proof.
  intros H r. apply scan_tables_inv in H. destruct H as [-> [_ [-> _]]].
  unfold btst_stocks. rewrite filter_In. split.
  - intros [H1 H2]. apply scan_symbols_in in H1. destruct H1 as [s [w [Hs E]]].
    exists s. split; [exact Hs|]. split; [|exact H2].
    destruct (analyze_stock_some yf ta s d r w E) as [data [today [prev [avg I]]]].
    destruct I as [_ [_ [_ [_ [_ [Hw _]]]]]]. rewrite <- Hw. exact E.
  - intros [s [Hs [E H2]]]. split; [|exact H2].
    eapply scan_symbols_in_conv; eassumption.
Qed.

Lemma candidate_is_record_passing_filter_witness :
  exists idx df btst written r,
    scan Sample.yf Sample.lib_as_read Sample.date_str
         ["W"; "X"]%string Sample.day
    = Tables idx df btst written
    /\ btst = [r]
    /\ exists symbol,
        In symbol ["W"; "X"]%string
        /\ analyze_stock Sample.yf Sample.lib_as_read symbol Sample.day
           = (Some r, [])
        /\ btst_criteria idx r = true.
Proof.
  eexists _, _, _, _, _. split; [vm_compute; reflexivity|].
  split; [reflexivity|].
  eapply (candidate_is_record_passing_filter Sample.yf Sample.lib_as_read
            Sample.date_str ["W"; "X"]%string Sample.day).
  - vm_compute. reflexivity.
  - left. reflexivity.
Defined.

(** ** No record at all, and the direction of the index *)

Lemma has_record_false_iff yf ta symbols d :
  fst (scan_symbols yf ta symbols d) = []
  <-> forall symbol, In symbol symbols -> has_record yf ta d symbol = false.
Proof.
  split.
  - intros H s Hs. destruct (has_record yf ta d s) eqn:E; [|reflexivity].
    exfalso.
    assert (K : In s (filter (has_record yf ta d) symbols))
      by (apply filter_In; auto).
    rewrite <- table_symbols_filter, H in K. exact K.
  - intros H.
    assert (K : map rec_Symbol (fst (scan_symbols yf ta symbols d)) = []).
    { rewrite table_symbols_filter.
      induction symbols as [|s rest IH]; [reflexivity|]. simpl.
      rewrite (H s) by (left; reflexivity). apply IH.
      intros s' Hs'. apply H. right. exact Hs'. }
    destruct (fst (scan_symbols yf ta symbols d)); [reflexivity | discriminate].
Qed.

(** With the index bar present, a run ends with the "no analysis results"
    warning instead of tables exactly when no symbol of the list gets a
    record, which includes the empty list. *)
Theorem no_results_iff_no_record yf ta date_str symbols d index_data :
  get_index_data yf d = Ok index_data ->
  In d (map fst index_data) ->
  (forall symbol, In symbol symbols -> has_record yf ta d symbol = false)
  <-> exists idx written,
      scan yf ta date_str symbols d
      = NoResults idx written
          "No analysis results available. Check your stock symbols and date selection.".
Proof.
  intros Hi Hin. apply index_contains_true in Hin.
  rewrite <- has_record_false_iff. unfold scan. rewrite Hi, Hin. simpl.
  assert (Hl : exists b, loc d index_data = Ok b).
  { unfold loc, index_contains in *.
    destruct (find (fun r => (fst r =? d)%Z) index_data) as [r|] eqn:F.
    - exists (snd r). reflexivity.
    - exfalso. apply existsb_exists in Hin. destruct Hin as [x [H1 H2]].
      apply (find_none _ _ F) in H1. congruence. }
  destruct Hl as [b ->].
  destruct (scan_symbols yf ta symbols d) as [[|x rs] ws]; simpl; split.
  - intros _. eexists _, _. reflexivity.
  - reflexivity.
  - discriminate.
  - intros [idx [w K]]. discriminate.
Qed.

Lemma no_results_iff_no_record_witness :
  exists idx written,
    scan Sample.yf Sample.lib_as_read Sample.date_str
         ["Y"; "ERR"; "Z"]%string Sample.day
    = NoResults idx written
        "No analysis results available. Check your stock symbols and date selection.".
Proof.
  apply (no_results_iff_no_record Sample.yf Sample.lib_as_read Sample.date_str
           ["Y"; "ERR"; "Z"]%string Sample.day
           [(Sample.day, Sample.index_bar)] eq_refl).
  - left. reflexivity.
  - intros s [<-|[<-|[<-|[]]]]; vm_compute; reflexivity.
Defined.

Lemma btst_stocks_gate idx df :
  btst_stocks idx df
  = if fge idx (Num 0) then filter per_symbol_clauses df else [].
Proof.
  unfold btst_stocks. destruct (fge idx (Num 0)) eqn:G.
  - apply filter_ext. intros r. unfold btst_criteria, per_symbol_clauses.
    rewrite G. apply andb_true_r.
  - induction df as [|r df IH]; simpl; [reflexivity|].
    unfold btst_criteria at 1. rewrite G, andb_false_r. exact IH.
Qed.

Lemma idx_pct_change_sign (b : Bar) :
  0 < Open b ->
  fge (idx_pct_change_of b) (Num 0) = true <-> Open b <= Close b.
Proof.
  intros Ho. unfold idx_pct_change_of. rewrite fdiv_Num by lra.
  simpl fmul. rewrite fge_Num. split; intros H.
  - destruct (Qlt_le_dec (Close b) (Open b)) as [K|K]; [|exact K].
    exfalso.
    assert (N : (Close b - Open b) / Open b < 0).
    { apply Qlt_shift_div_r; [exact Ho | lra]. }
    lra.
  - assert (P : 0 <= (Close b - Open b) / Open b).
    { apply Qle_shift_div_l; [exact Ho | lra]. }
    lra.
Qed.

(** With a positive index Open: when the index closed below its open no
    row is a candidate, whatever the symbols did; when it closed at or
    above its open (a flat day included) the candidates are the rows that
    pass the four per-symbol clauses. *)
Theorem index_direction_decides yf ta date_str symbols d index_data b :
  get_index_data yf d = Ok index_data ->
  index_contains d index_data = true ->
  loc d index_data = Ok b ->
  0 < Open b ->
  (Close b < Open b -> candidate_subset (scan yf ta date_str symbols d) = [])
  /\ (Open b <= Close b ->
      candidate_subset (scan yf ta date_str symbols d)
      = filter per_symbol_clauses (full_table (scan yf ta date_str symbols d))).
Proof.
  intros Hi Hc Hl Ho.
  assert (E : candidate_subset (scan yf ta date_str symbols d)
              = btst_stocks (idx_pct_change_of b)
                            (full_table (scan yf ta date_str symbols d))).
  { unfold scan. rewrite Hi, Hc, Hl. simpl.
    destruct (scan_symbols yf ta symbols d) as [[|x rs] ws]; reflexivity. }
  rewrite E, btst_stocks_gate. split; intros H.
  - destruct (fge (idx_pct_change_of b) (Num 0)) eqn:G; [|reflexivity].
    apply idx_pct_change_sign in G; [lra | exact Ho].
  - apply (idx_pct_change_sign b Ho) in H. rewrite H. reflexivity.
Qed.

Lemma index_direction_decides_witness :
  candidate_subset (scan Sample.yf Sample.lib_as_read Sample.date_str
                         ["W"; "X"]%string Sample.day)
  = filter per_symbol_clauses
           (full_table (scan Sample.yf Sample.lib_as_read Sample.date_str
                             ["W"; "X"]%string Sample.day)).
Proof.
  refine (proj2 (index_direction_decides Sample.yf Sample.lib_as_read
                   Sample.date_str ["W"; "X"]%string Sample.day
                   [(Sample.day, Sample.index_bar)] Sample.index_bar
                   eq_refl eq_refl eq_refl _) _).
  - reflexivity.
  - discriminate.
Defined.

(** ** Price metrics of a bar *)

(** For a bar with a positive Open and with Open and Close between Low and
    High, percent change and intraday range are the finite values
    (Close - Open) / Open * 100 and (High - Low) / Open * 100; the range is
    not negative and bounds the percent change in absolute value. *)
Theorem pct_change_within_range (b : Bar) :
  0 < Open b ->
  Low b <= Open b -> Open b <= High b ->
  Low b <= Close b -> Close b <= High b ->
  pct_change b = Num ((Close b - Open b) / Open b * 100)
  /\ intraday_range_pct b = Num ((High b - Low b) / Open b * 100)
  /\ 0 <= (High b - Low b) / Open b * 100
  /\ - ((High b - Low b) / Open b * 100) <= (Close b - Open b) / Open b * 100
  /\ (Close b - Open b) / Open b * 100 <= (High b - Low b) / Open b * 100.
Proof.
  intros Ho H1 H2 H3 H4.
  unfold pct_change, intraday_range_pct.
  rewrite !fdiv_Num by lra. simpl fmul.
  split; [reflexivity|]. split; [reflexivity|].
  assert (A : 0 <= (High b - Low b) / Open b).
  { apply Qle_shift_div_l; [exact Ho | lra]. }
  assert (B : (Close b - Open b) / Open b <= (High b - Low b) / Open b).
  { apply Qle_shift_div_l; [exact Ho|].
    setoid_replace ((Close b - Open b) / Open b * Open b)
      with (Close b - Open b) by (field; lra). lra. }
  assert (C : - ((High b - Low b) / Open b) <= (Close b - Open b) / Open b).
  { apply Qle_shift_div_l; [exact Ho|].
    setoid_replace (- ((High b - Low b) / Open b) * Open b)
      with (- (High b - Low b)) by (field; lra). lra. }
  repeat split; lra.
Qed.

Lemma pct_change_within_range_witness :
  pct_change Sample.today_bar = Num ((108 - 100) / 100 * 100)
  /\ intraday_range_pct Sample.today_bar = Num ((110 - 98) / 100 * 100).
Proof.
  refine ((fun K => conj (proj1 K) (proj1 (proj2 K)))
            (pct_change_within_range Sample.today_bar _ _ _ _ _));
    unfold Sample.today_bar; simpl; lra.
Defined.

(** A bar whose Open is 0 raises nothing: the percent change is +inf, -inf
    or NaN as the Close is positive, negative or 0, so it passes the ">= 2"
    clause of the filter exactly when the Close is positive. *)
Theorem pct_change_zero_open (b : Bar) :
  Open b == 0 ->
  (0 < Close b -> pct_change b = PInf)
  /\ (Close b < 0 -> pct_change b = NInf)
  /\ (Close b == 0 -> pct_change b = NaN)
  /\ (fge (pct_change b) (Num 2) = true <-> 0 < Close b).
Proof.
  intros Ho. unfold pct_change. simpl fdiv.
  assert (Z0 : Qeq_bool (Open b) 0 = true) by (apply Qeq_bool_iff; exact Ho).
  rewrite Z0.
  destruct (Qeq_bool (Close b - Open b) 0) eqn:E.
  - apply Qeq_bool_iff in E. simpl.
    split; [intros; lra|]. split; [intros; lra|]. split; [reflexivity|].
    split; [discriminate | intros; lra].
  - apply Qeq_bool_false in E.
    destruct (Qlt_bool 0 (Close b - Open b)) eqn:L.
    + apply Qlt_bool_iff in L. simpl.
      split; [reflexivity|]. split; [intros; lra|]. split; [intros; lra|].
      split; [intros _; lra | reflexivity].
    + assert (N : ~ 0 < Close b - Open b).
      { intros K. apply Qlt_bool_iff in K. congruence. }
      simpl.
      split; [intros; lra|]. split; [reflexivity|]. split; [intros; lra|].
      split; [discriminate | intros; lra].
Qed.

Lemma pct_change_zero_open_witness :
  pct_change (mkBar 0 5 0 3 100) = PInf
  /\ fge (pct_change (mkBar 0 5 0 3 100)) (Num 2) = true.
Proof.
  assert (Ho : Open (mkBar 0 5 0 3 100) == 0) by reflexivity.
  assert (Hc : 0 < Close (mkBar 0 5 0 3 100)) by reflexivity.
  split.
  - exact (proj1 (pct_change_zero_open (mkBar 0 5 0 3 100) Ho) Hc).
  - exact (proj2 (proj2 (proj2 (proj2
             (pct_change_zero_open (mkBar 0 5 0 3 100) Ho)))) Hc).
Defined.

(** ** The value of line 91 *)

Lemma avg_volume_value (data : PriceFrame) (avg : fnum) :
  avg_volume data = Ok avg ->
  (2 <= List.length data)%nat
  /\ (avg = NaN
      \/ exists a, avg = Num a /\ (11 <= List.length data)%nat).
Proof.
  unfold avg_volume, iloc_neg. rewrite rolling_mean_length, length_map.
  destruct (Nat.ltb_spec (List.length data) 2); [discriminate|].
  rewrite rolling_mean_nth by (rewrite length_map; lia).
  intros E. injection E as <-. split; [lia|].
  destruct (Nat.ltb_spec (S (List.length data - 2)) 10).
  - left. reflexivity.
  - right. eexists. split; [reflexivity | lia].
Qed.

(** ** What the volume clause asks of the history *)

(** A record whose volume spike is at least 2, so every candidate, comes
    from a frame of at least eleven rows, has a finite positive 10-day
    average, and its volume is at least twice that average. *)
Theorem spike_needs_history yf ta symbol d r written :
  analyze_stock yf ta symbol d = (Some r, written) ->
  fge (rec_VolumeSpike r) (Num 2) = true ->
  exists data a,
    yf symbol (d - 60)%Z (d + 1)%Z = Ok data
    /\ (11 <= List.length data)%nat
    /\ rec_AvgVolume10D r = Num a
    /\ 0 < a
    /\ 2 * a <= rec_Volume r.
Proof.
  intros H G.
  destruct (analyze_stock_some_full yf ta symbol d r written H)
    as [data [today [prev [avg [s [mf [bf [mrow [brow I]]]]]]]]].
  destruct I as [Hd [_ [_ [Ha [_ [_ [_ [_ [_ [_ [_ [_ [_ [_ [_ E]]]]]]]]]]]]]]].
  rewrite E in G |- *. simpl in G |- *.
  apply avg_volume_value in Ha. destruct Ha as [_ [->|[a [-> Hlen]]]].
  - simpl in G. discriminate.
  - unfold volume_spike in G.
    destruct (fgt (Num a) (Num 0)) eqn:P; [|simpl in G; discriminate].
    apply Qlt_bool_iff in P. rewrite fdiv_Num in G by lra.
    apply fge_Num in G.
    exists data, a. repeat (split; [assumption || reflexivity|]).
    setoid_replace (Volume today) with (Volume today / a * a) by (field; lra).
    apply Qmult_le_compat_r; lra.
Qed.

Lemma spike_needs_history_witness :
  exists r data a,
    analyze_stock Sample.yf Sample.lib_as_read "X" Sample.day = (Some r, [])
    /\ Sample.yf "X" (Sample.day - 60)%Z (Sample.day + 1)%Z = Ok data
    /\ (11 <= List.length data)%nat
    /\ rec_AvgVolume10D r = Num a.
Proof.
  destruct (spike_needs_history Sample.yf Sample.lib_as_read "X"%string
              Sample.day _ [] eq_refl eq_refl) as [data [a [H1 [H2 [H3 _]]]]].
  eexists _, data, a. split; [vm_compute; reflexivity|].
  split; [exact H1|]. split; [exact H2 | exact H3].
Defined.

(** With the provider keeping to the window and between one and nine bars
    before the analysis date, the stored 10-day average is NaN, the volume
    spike is exactly 0, and the record is no candidate whatever the index
    did. *)
Theorem warm_up_never_candidate yf ta symbol d data r written :
  yf symbol (d - 60)%Z (d + 1)%Z = Ok data ->
  window_ok (d - 60)%Z (d + 1)%Z data ->
  (1 <= List.length (rows_before d data) < 10)%nat ->
  analyze_stock yf ta symbol d = (Some r, written) ->
  rec_AvgVolume10D r = NaN
  /\ rec_VolumeSpike r = Num 0
  /\ forall idx, btst_criteria idx r = false.
Proof.
  intros Hd Hw Hlen H.
  destruct (analyze_stock_some_full yf ta symbol d r written H)
    as [data' [today' [prev [avg [s [mf [bf [mrow [brow I]]]]]]]]].
  destruct I as [Hd' [Ht [_ [Ha [_ [_ [_ [_ [_ [_ [_ [_ [_ [_ [_ E]]]]]]]]]]]]]]].
  rewrite Hd in Hd'. injection Hd' as <-.
  assert (Hc : In d (map fst data)).
  { apply loc_in in Ht. apply in_map_iff. exists (d, today'). auto. }
  destruct (window_split _ _ _ Hw Hc) as [prior [today [Ed HF]]].
  subst data. rewrite rows_before_app_last in Hlen by exact HF.
  rewrite avg_volume_snoc in Ha by lia.
  destruct (Nat.ltb_spec (List.length prior) 10); [|lia].
  injection Ha as <-.
  assert (A : rec_AvgVolume10D r = NaN) by (rewrite E; reflexivity).
  assert (S0 : rec_VolumeSpike r = Num 0) by (rewrite E; reflexivity).
  split; [exact A|]. split; [exact S0|].
  intros idx. unfold btst_criteria. rewrite S0.
  replace (fge (Num 0) (Num 2)) with false by reflexivity.
  rewrite andb_false_r. reflexivity.
Qed.

Lemma sample_window_W :
  window_ok (Sample.day - 60)%Z (Sample.day + 1)%Z
            (Sample.in_window (Sample.day - 60)%Z (Sample.day + 1)%Z Sample.frame_W).
Proof. apply window_okb_sound. vm_compute. reflexivity. Qed.

Lemma warm_up_never_candidate_witness :
  exists r,
    analyze_stock Sample.yf Sample.lib_as_read "W" Sample.day = (Some r, [])
    /\ rec_AvgVolume10D r = NaN
    /\ rec_VolumeSpike r = Num 0.
Proof.
  eexists. split; [vm_compute; reflexivity|].
  refine ((fun K => conj (proj1 K) (proj1 (proj2 K)))
            (warm_up_never_candidate Sample.yf Sample.lib_as_read "W"%string
               Sample.day _ _ [] eq_refl sample_window_W _ _)).
  - vm_compute. lia.
  - vm_compute. reflexivity.
Defined.

(** ** What a candidate's bar looks like *)

(** A record that passes the filter, with a positive Open and Low <= High,
    closed strictly above its open and strictly above its low, on a day
    whose High is strictly above its Low, and was scanned with an index
    change that is not negative. *)
Theorem candidate_bar_shape yf ta symbol d r written idx :
  analyze_stock yf ta symbol d = (Some r, written) ->
  btst_criteria idx r = true ->
  0 < rec_Open r ->
  rec_Low r <= rec_High r ->
  rec_Open r < rec_Close r
  /\ rec_Low r < rec_High r
  /\ rec_Low r < rec_Close r
  /\ fge idx (Num 0) = true.
Proof.
  intros H G Ho Hlh.
  destruct (analyze_stock_some_full yf ta symbol d r written H)
    as [data [today [prev [avg [s [mf [bf [mrow [brow I]]]]]]]]].
  destruct I as [_ [_ [_ [_ [_ [_ [_ [_ [_ [_ [_ [_ [_ [_ [_ E]]]]]]]]]]]]]]].
  unfold btst_criteria in G. repeat rewrite andb_true_iff in G.
  destruct G as [[[[G1 _] G3] _] G5].
  rewrite E in G1, G3, Ho, Hlh |- *. simpl in G1, G3, Ho, Hlh |- *.
  unfold pct_change in G1. rewrite fdiv_Num in G1 by lra.
  simpl fmul in G1. apply fge_Num in G1.
  unfold pct_close_near_high in G3.
  destruct (Qeq_bool (High today) (Low today)) eqn:Q;
    simpl negb in G3; cbv iota in G3; [discriminate|].
  apply Qeq_bool_false in Q.
  assert (Hlt : Low today < High today) by lra.
  rewrite fdiv_Num in G3 by lra. simpl fmul in G3. apply fge_Num in G3.
  split; [|split; [exact Hlt|split; [|exact G5]]].
  - assert (K : 2 * Open today
                <= (Close today - Open today) / Open today * 100 * Open today).
    { apply Qmult_le_compat_r; lra. }
    setoid_replace ((Close today - Open today) / Open today * 100 * Open today)
      with (100 * (Close today - Open today)) in K by (field; lra).
    lra.
  - assert (K : 70 * (High today - Low today)
                <= (Close today - Low today) / (High today - Low today) * 100
                   * (High today - Low today)).
    { apply Qmult_le_compat_r; lra. }
    setoid_replace ((Close today - Low today) / (High today - Low today) * 100
                    * (High today - Low today))
      with (100 * (Close today - Low today)) in K by (field; lra).
    lra.
Qed.

Lemma candidate_bar_shape_witness :
  exists r,
    analyze_stock Sample.yf Sample.lib_as_read "X" Sample.day = (Some r, [])
    /\ rec_Open r < rec_Close r
    /\ rec_Low r < rec_High r.
Proof.
  eexists. split; [vm_compute; reflexivity|].
  refine ((fun K => conj (proj1 K) (proj1 (proj2 K)))
            (candidate_bar_shape Sample.yf Sample.lib_as_read "X"%string
               Sample.day _ [] (Num (1 # 2)) _ _ _ _)).
  - vm_compute. reflexivity.
  - vm_compute. reflexivity.
  - vm_compute. reflexivity.
  - vm_compute. discriminate.
Defined.

(** ** When the analyzer returns a record, and when the library declines *)

(** A frame answered in strictly increasing date order has no date
    twice. *)
Lemma window_unique_dates (start_date end_date : date) (data : PriceFrame) :
  window_ok start_date end_date data -> NoDup (map fst data).
Proof.
  intros [Hs _]. induction Hs as [|x l _ IH Hlt]; constructor.
  - intros K. rewrite Forall_forall in Hlt. specialize (Hlt _ K). lia.
  - exact IH.
Qed.

Lemma iloc_neg_ok {A : Type} (k : nat) (s : list A) :
  (1 <= k <= List.length s)%nat -> exists a, iloc_neg k s = Ok a.
Proof.
  intros H. unfold iloc_neg.
  destruct (Nat.ltb_spec (List.length s) k); [lia|].
  destruct (nth_error s (List.length s - k)) as [a|] eqn:E.
  - exists a. reflexivity.
  - apply nth_error_None in E. lia.
Qed.

Lemma loc_ok (d : date) (data : PriceFrame) :
  In d (map fst data) -> exists today, loc d data = Ok today.
Proof.
  intros H. unfold loc.
  destruct (find (fun r => (fst r =? d)%Z) data) as [r|] eqn:F.
  - exists (snd r). reflexivity.
  - exfalso. apply in_map_iff in H. destruct H as [x [H1 H2]].
    apply (find_none _ _ F) in H2. simpl in H2. apply Z.eqb_neq in H2.
    contradiction.
Qed.

(** Line 83 does not raise on a frame that is not empty. *)
Lemma prev_day_ok (d : date) (data : PriceFrame) :
  data <> [] -> exists prev, prev_day d data = Ok prev.
Proof.
  intros H. destruct data as [|r rest]; [contradiction|].
  destruct (fst r <? d)%Z eqn:L.
  - destruct (iloc_neg_ok 1 (rows_before d (r :: rest))) as [a Ha].
    + unfold rows_before. simpl. rewrite L. simpl. lia.
    + unfold prev_day. rewrite Ha. simpl. rewrite L. eexists. reflexivity.
  - unfold prev_day. simpl. rewrite L. eexists. reflexivity.
Qed.

(** If the frame, with no date twice in its index, holds the analysis
    date and at least two rows, and each of the three indicator calls
    answers with a non-empty result whose last row has the columns read,
    the analyzer returns a record, writes nothing, and the indicator
    fields are the values read. *)
Theorem record_when_every_step_succeeds yf ta symbol d data s mf bf mrow brow
        ml ms bu bm bl :
  yf symbol (d - 60)%Z (d + 1)%Z = Ok data ->
  NoDup (map fst data) ->
  In d (map fst data) ->
  (2 <= List.length data)%nat ->
  ta_rsi ta (closes_of data) 14 = Ok (Some s) -> s <> [] ->
  ta_macd ta (closes_of data) = Ok (Some mf) -> iloc_neg 1 mf = Ok mrow ->
  getitem "MACD_12_26_9" mrow = Ok ml -> getitem "MACDs_9" mrow = Ok ms ->
  ta_bbands ta (closes_of data) 20 = Ok (Some bf) -> iloc_neg 1 bf = Ok brow ->
  getitem "BBU_20_2.0" brow = Ok bu ->
  getitem "BBM_20_2.0" brow = Ok bm ->
  getitem "BBL_20_2.0" brow = Ok bl ->
  exists r,
    analyze_stock yf ta symbol d = (Some r, [])
    /\ rec_Symbol r = symbol
    /\ rec_MACD r = ml /\ rec_MACDSignal r = ms
    /\ rec_BBUpper r = bu /\ rec_BBMiddle r = bm /\ rec_BBLower r = bl.
Proof.
  intros Hd _ Hin Hlen Hs Hne Hmf Hmr Hml Hms Hbf Hbr Hbu Hbm Hbl.
  destruct (loc_ok d data Hin) as [today Ht].
  destruct (prev_day_ok d data) as [prev Hp].
  { intros ->. simpl in Hlen. lia. }
  destruct (iloc_neg_ok 2 (rolling_mean 10 (map (fun r => Volume (snd r)) data)))
    as [avg Ha].
  { rewrite rolling_mean_length, length_map. lia. }
  destruct (iloc_neg_ok 1 s) as [rsi Hr].
  { destruct s; [contradiction | simpl; lia]. }
  apply index_contains_true in Hin.
  unfold analyze_stock, analyze_body. fold (closes_of data) in *.
  rewrite Hd. cbv beta iota delta [bind]. rewrite Hin. simpl negb. cbv beta iota.
  rewrite Ht. cbv beta iota. rewrite Hp. cbv beta iota.
  unfold avg_volume. rewrite Ha. cbv beta iota.
  fold (closes_of data).
  rewrite Hs. cbv beta iota. simpl iloc_last_of. rewrite Hr. cbv beta iota.
  rewrite Hmf. cbv beta iota. simpl iloc_last_of. rewrite Hmr. cbv beta iota.
  rewrite Hbf. cbv beta iota. simpl iloc_last_of. rewrite Hbr. cbv beta iota.
  rewrite Hml. cbv beta iota. rewrite Hms. cbv beta iota.
  rewrite Hbu. cbv beta iota. rewrite Hbm. cbv beta iota.
  rewrite Hbl. cbv beta iota.
  eexists. split; [reflexivity|]. simpl. repeat split.
Qed.

Lemma record_when_every_step_succeeds_witness :
  exists r,
    analyze_stock Sample.yf Sample.lib_as_read "X" Sample.day = (Some r, [])
    /\ rec_Symbol r = "X"%string.
Proof.
  destruct (record_when_every_step_succeeds Sample.yf Sample.lib_as_read
              "X"%string Sample.day
              (Sample.in_window (Sample.day - 60)%Z (Sample.day + 1)%Z
                                Sample.frame_X)
              (map (fun _ => Num 50) (closes_of Sample.frame_X))
              (Sample.frame_with ["MACD_12_26_9"; "MACDh_12_26_9"; "MACDs_9"]%string
                                 (closes_of Sample.frame_X))
              (Sample.frame_with Sample.bb_columns (closes_of Sample.frame_X))
              (map (fun k => (k, Num 108))
                   ["MACD_12_26_9"; "MACDh_12_26_9"; "MACDs_9"]%string)
              (map (fun k => (k, Num 108)) Sample.bb_columns)
              (Num 108) (Num 108) (Num 108) (Num 108) (Num 108))
    as [r [H1 [H2 _]]];
    try (vm_compute; reflexivity).
  - apply window_unique_dates with (start_date := (Sample.day - 60)%Z)
                                   (end_date := (Sample.day + 1)%Z).
    exact sample_window_X.
  - apply index_contains_true. vm_compute. reflexivity.
  - vm_compute. lia.
  - discriminate.
  - exists r. split; [exact H1 | exact H2].
Defined.

(** If the frame, with no date twice in its index, holds the analysis
    date and at least two rows but the RSI call returns None, as the
    library does for a series shorter than the length asked, the symbol
    gets no record: the analyzer returns the sentinel and writes the
    attribute error of [None.iloc]. *)
Theorem declined_indicator_drops_symbol yf ta symbol d data :
  yf symbol (d - 60)%Z (d + 1)%Z = Ok data ->
  NoDup (map fst data) ->
  In d (map fst data) ->
  (2 <= List.length data)%nat ->
  ta_rsi ta (closes_of data) 14 = Ok None ->
  analyze_stock yf ta symbol d
  = (None, [("Error analyzing " ++ symbol
             ++ ": 'NoneType' object has no attribute 'iloc'")%string]).
Proof.
  intros Hd _ Hin Hlen Hs.
  destruct (loc_ok d data Hin) as [today Ht].
  destruct (prev_day_ok d data) as [prev Hp].
  { intros ->. simpl in Hlen. lia. }
  destruct (iloc_neg_ok 2 (rolling_mean 10 (map (fun r => Volume (snd r)) data)))
    as [avg Ha].
  { rewrite rolling_mean_length, length_map. lia. }
  apply index_contains_true in Hin.
  unfold analyze_stock, analyze_body. fold (closes_of data) in *.
  rewrite Hd. cbv beta iota delta [bind]. rewrite Hin. simpl negb. cbv beta iota.
  rewrite Ht. cbv beta iota. rewrite Hp. cbv beta iota.
  unfold avg_volume. rewrite Ha. cbv beta iota.
  fold (closes_of data). rewrite Hs. reflexivity.
Qed.

Lemma declined_indicator_drops_symbol_witness :
  analyze_stock Sample.yf Sample.lib_min_length "W" Sample.day
  = (None, ["Error analyzing W: 'NoneType' object has no attribute 'iloc'"%string]).
Proof.
  apply (declined_indicator_drops_symbol Sample.yf Sample.lib_min_length
           "W"%string Sample.day
           (Sample.in_window (Sample.day - 60)%Z (Sample.day + 1)%Z
                             Sample.frame_W) eq_refl).
  - apply window_unique_dates with (start_date := (Sample.day - 60)%Z)
                                   (end_date := (Sample.day + 1)%Z).
    exact sample_window_W.
  - apply index_contains_true. vm_compute. reflexivity.
  - vm_compute. lia.
  - vm_compute. reflexivity.
Defined.

(** ** The index frame of a one-day window *)

Lemma window_one_day (d : date) (data : PriceFrame) :
  window_ok d (d + 1)%Z data ->
  data = [] \/ exists b, data = [(d, b)].
Proof.
  intros [Hs Hw]. destruct data as [|[d1 b1] rest]; [left; reflexivity|].
  right. apply Forall_cons_iff in Hw. destruct Hw as [H1 Hw]. simpl in H1.
  assert (d1 = d) by lia. subst d1.
  destruct rest as [|[d2 b2] rest'].
  - exists b1. reflexivity.
  - exfalso. simpl in Hs. apply StronglySorted_inv in Hs.
    destruct Hs as [_ Hlt]. apply Forall_inv in Hlt.
    apply Forall_inv in Hw. simpl in Hw. lia.
Qed.

(** With a provider that keeps to the one-day window [get_index_data]
    asks for, the index frame is empty or the single bar of the date; the
    run stops with the warning exactly when it is empty, and otherwise the
    index change comes from that one bar. *)
Theorem index_frame_empty_iff_stopped yf ta date_str symbols d index_data :
  get_index_data yf d = Ok index_data ->
  window_ok d (d + 1)%Z index_data ->
  (index_data = [] <->
   exists warning, scan yf ta date_str symbols d = Stopped warning)
  /\ (forall idx df btst written,
         scan yf ta date_str symbols d = Tables idx df btst written ->
         exists b, index_data = [(d, b)]
                   /\ idx = fmul (fdiv (Num (Close b - Open b)) (Num (Open b)))
                                 (Num 100)).
Proof.
  intros Hi Hw. unfold scan. rewrite Hi.
  destruct (window_one_day d index_data Hw) as [->|[b ->]].
  - simpl. split.
    + split; [intros _; eexists; reflexivity | reflexivity].
    + intros idx df btst written K. discriminate.
  - unfold index_contains, loc. simpl. rewrite Z.eqb_refl. simpl.
    destruct (scan_symbols yf ta symbols d) as [[|x rs] ws]; split.
    + split; [discriminate | intros [w K]; discriminate].
    + intros idx df btst written K. discriminate.
    + split; [discriminate | intros [w K]; discriminate].
    + intros idx df btst written K. injection K as <- _ _ _.
      exists b. split; reflexivity.
Qed.

Lemma sample_window_index :
  window_ok (Sample.day + 1)%Z (Sample.day + 1 + 1)%Z
            (Sample.in_window (Sample.day + 1)%Z (Sample.day + 1 + 1)%Z
                              Sample.frame_index).
Proof. apply window_okb_sound. vm_compute. reflexivity. Qed.

Lemma index_frame_empty_iff_stopped_witness :
  exists warning,
    scan Sample.yf Sample.lib_as_read Sample.date_str ["X"]%string
         (Sample.day + 1)%Z
    = Stopped warning.
Proof.
  apply (proj1 (index_frame_empty_iff_stopped Sample.yf Sample.lib_as_read
                  Sample.date_str ["X"]%string (Sample.day + 1)%Z _ eq_refl
                  sample_window_index)).
  vm_compute. reflexivity.
Defined.
